(** * Mental-health predictor: the predict-serve pipeline

    A shallow embedding of [serve.py] (the Flask application) and
    [predict.py] (the standalone prediction function), and the properties
    of the prediction service proved or refuted on it.

    Conventions of the embedding.
    - A Python [float] / [numpy.float64] is modelled by its exact value:
      a rational, an infinity or NaN.  [round(x, 4)] yields the decimal
      with four places nearest to [x], ties to even; the final conversion
      of that decimal back to binary64 (monotone, exact on 0, 1/2 and 1)
      is not modelled.
    - The fitted model and vectorizer are unpickled objects; an object is
      modelled by what its methods [transform] and [predict_proba] do.  A
      missing method is a method that raises [AttributeError].
    - Effects are explicit: a handler is a function of the process state
      (the attributes stored on the [predict] function object) that
      returns its outcome, the new state and the trace of the effects it
      performed (file opened, attribute stored, method called).
    - The artifact file is an input of every request, so that it may
      change, appear or disappear between two requests. *)

From Stdlib Require Import ZArith QArith String List Lia.
From stdpp Require Import gmap strings list fin_maps.

Open Scope string_scope.
Open Scope list_scope.
Open Scope Z_scope.

(** ** Python values *)

Inductive pyfloat :=
| Finite (q : Q)
| Inf (negative : bool)
| NaN.

(** [x >= 0.5] on floats: false on NaN. *)
Definition ge_half (x : pyfloat) : bool :=
  match x with
  | Finite q => Qle_bool (1 # 2) q
  | Inf negative => negb negative
  | NaN => false
  end.

(** Nearest integer to [n/d], ties to the even one. *)
Definition round_half_even (q : Q) : Z :=
  let n := Qnum q in
  let d := Z.pos (Qden q) in
  let f := n / d in
  match (2 * (n mod d)) ?= d with
  | Lt => f
  | Gt => f + 1
  | Eq => if Z.even f then f else f + 1
  end.

(** [round(x, 4)] on a finite float. *)
Definition round4 (q : Q) : Q :=
  round_half_even (q * (10000 # 1)) # 10000.

(** [round(x, 4)]: infinities and NaN are returned as they are. *)
Definition py_round4 (x : pyfloat) : pyfloat :=
  match x with
  | Finite q => Finite (round4 q)
  | _ => x
  end.

(** [int(b)] for a boolean [b]. *)
Definition int_of_bool (b : bool) : Z := if b then 1 else 0.

(** Values that [json.loads] produces and [jsonify] consumes. *)
#[warnings="-register-all"]
Inductive json :=
| JNull
| JBool (b : bool)
| JInt (z : Z)
| JFloat (x : pyfloat)
| JStr (s : string)
| JList (l : list json)
| JObj (m : gmap string json).

(** Python truth value, as tested by [not data]. *)
Definition truthy (v : json) : bool :=
  match v with
  | JNull => false
  | JBool b => b
  | JInt z => negb (Z.eqb z 0)
  | JFloat (Finite q) => negb (Qeq_bool q 0)
  | JFloat _ => true
  | JStr s => negb (String.eqb s EmptyString)
  | JList l => negb (Nat.eqb (length l) 0)
  | JObj m => negb (Nat.eqb (size m) 0)
  end.

(** ** Exceptions and results *)

(** An exception: its [str(e)], and its HTTP status code when it is one of
    werkzeug's [HTTPException]s. *)
Record pyexn := PyExn { exn_http : option Z; exn_str : string }.

Definition Exception (msg : string) : pyexn := PyExn None msg.
Definition HTTPException (code : Z) (msg : string) : pyexn :=
  PyExn (Some code) msg.

Inductive result (A : Type) :=
| Ok (a : A)
| Raise (e : pyexn).
Arguments Ok {A} a.
Arguments Raise {A} e.

(** ** Objects of the artifact *)

Definition matrix := list (list pyfloat).

(** An unpickled object, by its two methods used by the service. *)
Record pyobj := PyObj {
  transform : list json -> result matrix;
  predict_proba : matrix -> result matrix
}.

(** What [open(MODEL_PATH, "rb")] followed by [pickle.load] finds. *)
Inductive file :=
| Missing
| Corrupt (msg : string)
| Pickled (artifact : gmap string pyobj).

(** ** Effects *)

Inductive event :=
| EvOpen (path : string)
| EvSetAttr (name : string)
| EvCall (method : string).

(** The attributes stored on the [predict] function object. *)
Abbreviation attrs := (gmap string pyobj).

(** Computations: state passing, exceptions and a trace. *)
Definition M (A : Type) : Type := attrs -> result A * attrs * list event.

Definition ret {A} (a : A) : M A := fun st => (Ok a, st, []).

Definition raise {A} (e : pyexn) : M A := fun st => (Raise e, st, []).

Definition bind {A B} (m : M A) (k : A -> M B) : M B := fun st =>
  match m st with
  | (Ok a, st1, t1) =>
      match k a st1 with
      | (r, st2, t2) => (r, st2, t1 ++ t2)
      end
  | (Raise e, st1, t1) => (Raise e, st1, t1)
  end.

(** [try: m  except Exception as e: h e]. *)
Definition try_except {A} (m : M A) (h : pyexn -> M A) : M A := fun st =>
  match m st with
  | (Ok a, st1, t1) => (Ok a, st1, t1)
  | (Raise e, st1, t1) =>
      match h e st1 with
      | (r, st2, t2) => (r, st2, t1 ++ t2)
      end
  end.

Definition tell (e : event) : M unit := fun st => (Ok tt, st, [e]).

Definition lift {A} (r : result A) : M A := fun st => (r, st, []).

Definition hasattr (name : string) : M bool := fun st =>
  (Ok (bool_decide (is_Some (st !! name))), st, []).

Definition getattr (name : string) : M pyobj := fun st =>
  match st !! name with
  | Some o => (Ok o, st, [])
  | None =>
      (Raise (Exception ("'function' object has no attribute '" +:+ name +:+ "'")),
       st, [])
  end.

Definition setattr (name : string) (o : pyobj) : M unit := fun st =>
  (Ok tt, <[name := o]> st, [EvSetAttr name]).

#[export] Instance M_ret : MRet M := @ret.
#[export] Instance M_bind : MBind M := fun A B k m => bind m k.

(** ** Helpers shared by the two programs *)

Definition MODEL_PATH : string := "model.bin".

(** [with open(MODEL_PATH, "rb") as f: artifact = pickle.load(f)]. *)
Definition pickle_load (fs : file) : M (gmap string pyobj) :=
  tell (EvOpen MODEL_PATH);;
  match fs with
  | Missing =>
      raise (Exception "[Errno 2] No such file or directory: 'model.bin'")
  | Corrupt msg => raise (Exception msg)
  | Pickled artifact => ret artifact
  end.

(** [d[key]] on a dict: [KeyError] when the key is absent. *)
Definition getitem (d : gmap string pyobj) (key : string) : M pyobj :=
  match d !! key with
  | Some o => ret o
  | None => raise (Exception ("'" +:+ key +:+ "'"))
  end.

(** [P[i, j]] on a two-dimensional array, [i] and [j] not negative:
    [IndexError] out of range (numpy's message, which names the axis and
    its size, is shortened). *)
Definition getitem2 (P : matrix) (i j : nat) : M pyfloat :=
  match P !! i with
  | Some row =>
      match row !! j with
      | Some x => ret x
      | None => raise (Exception "index out of bounds")
      end
  | None => raise (Exception "index out of bounds")
  end.

Definition call_transform (dv : pyobj) (records : list json) : M matrix :=
  tell (EvCall "transform") ;; lift (transform dv records).

Definition call_predict_proba (model : pyobj) (X : matrix) : M matrix :=
  tell (EvCall "predict_proba") ;; lift (predict_proba model X).

(** ** predict.py *)

Module Predict.

Definition load_artifacts (fs : file) : M (pyobj * pyobj) :=
  artifact ← pickle_load fs;
  model ← getitem artifact "model";
  dv ← getitem artifact "dict_vectorizer";
  ret (model, dv).

Definition predict (fs : file) (features : json) : M (gmap string json) :=
  '(model, dv) ← load_artifacts fs;
  X ← call_transform dv [features];
  P ← call_predict_proba model X;
  prob ← getitem2 P 0 1;
  let pred := int_of_bool (ge_half prob) in
  ret ({[ "probability" := JFloat prob; "prediction" := JInt pred ]}
         : gmap string json).

End Predict.

(** ** The web framework

    Flask and werkzeug are libraries, not code of the repository; what the
    service relies on is written out here. *)

(** What [json.loads] makes of the bytes of a body.  It returns a value, or
    raises [JSONDecodeError] or [UnicodeDecodeError], both subclasses of
    [ValueError] (the body is empty, or is not JSON), or raises
    [RecursionError]: arrays and objects are decoded recursively, and a body
    nested deeper than the interpreter allows, well-formed or not, overflows
    the decoder before it reaches the end of the text. *)
Inductive parse :=
| Parsed (v : json)
| Malformed
| TooDeep (msg : string).

(** The body of a POST request: whether its Content-Type announces JSON, and
    what [json.loads] makes of its bytes. *)
Record request := Request {
  is_json : bool;
  loads : parse
}.

(** What [get_json] does with a Content-Type that is not JSON changed over
    the releases of werkzeug: it returned [None] before 2.1, aborted with
    400 from 2.1 on and aborts with 415 since 2.3. *)
Inductive werkzeug := Werkzeug20 | Werkzeug21 | Werkzeug23.

Definition BadRequest : pyexn := HTTPException 400 "400 Bad Request".
Definition UnsupportedMediaType : pyexn :=
  HTTPException 415 "415 Unsupported Media Type".
Definition RecursionError (msg : string) : pyexn := Exception msg.

(** [request.get_json()], with its default arguments.  The call of
    [json.loads] is guarded by [except ValueError] only: a [ValueError]
    becomes [BadRequest], a [RecursionError] leaves [get_json] as it is. *)
Definition get_json (w : werkzeug) (r : request) : result json :=
  if is_json r then
    match loads r with
    | Parsed v => Ok v
    | Malformed => Raise BadRequest
    | TooDeep msg => Raise (RecursionError msg)
    end
  else
    match w with
    | Werkzeug20 => Ok JNull
    | Werkzeug21 => Raise BadRequest
    | Werkzeug23 => Raise UnsupportedMediaType
    end.

Inductive body :=
| Json (fields : gmap string json)
| ErrorPage.

Record response := Response { status : Z; content : body }.

(** [jsonify(d), code]. *)
Definition jsonify (d : gmap string json) (code : Z) : response :=
  Response code (Json d).

(** One request through a view function: an [HTTPException] that leaves the
    view becomes the response of its code, any other exception the generic
    500 response ([debug=False]); the process goes on either way. *)
Definition full_dispatch_request (view : M response)
  : attrs -> response * attrs * list event := fun st =>
  match view st with
  | (Ok resp, st1, t) => (resp, st1, t)
  | (Raise e, st1, t) =>
      (Response (default 500 (exn_http e)) ErrorPage, st1, t)
  end.

(** ** serve.py *)

Module Serve.

Definition load_artifact (fs : file) : M (pyobj * pyobj) :=
  artifact ← pickle_load fs;
  model ← getitem artifact "model";
  dv ← getitem artifact "dict_vectorizer";
  ret (model, dv).

Definition root : M response :=
  ret (jsonify {[ "status" := JStr "OK";
                  "service" := JStr "Global Mental Health & Lifestyle Predictor" ]}
               200).

Definition health : M response :=
  ret (jsonify {[ "status" := JStr "OK" ]} 200).

(** The body of the [try] block of [predict]. *)
Definition predict_try (data : json) : M response :=
  dv ← getattr "dv";
  X ← call_transform dv [data];
  model ← getattr "model";
  P ← call_predict_proba model X;
  prob ← getitem2 P 0 1;
  let pred := int_of_bool (ge_half prob) in
  let result : gmap string json :=
    {[ "probability" := JFloat (py_round4 prob);
       "prediction" := JInt pred ]} in
  ret (jsonify result 200).

Definition predict (w : werkzeug) (fs : file) (r : request) : M response :=
  data ← lift (get_json w r);
  if negb (truthy data) then
    ret (jsonify {[ "error" := JStr "No input data provided" ]} 400)
  else
    loaded ← hasattr "model";
    (if negb loaded then
       '(model, dv) ← load_artifact fs;
       setattr "model" model;;
       setattr "dv" dv
     else ret tt);;
    try_except
      (predict_try data)
      (fun e => ret (jsonify {[ "error" := JStr (exn_str e) ]} 500)).

(** The routes of the application. *)
Inductive verb := GET | POST.

Record http_request := HttpRequest {
  method : verb;
  path : string;
  payload : request
}.

Definition app (w : werkzeug) (fs : file) (hr : http_request)
  : attrs -> response * attrs * list event :=
  if String.eqb (path hr) "/" then
    match method hr with
    | GET => full_dispatch_request root
    | POST => fun st => (Response 405 ErrorPage, st, [])
    end
  else if String.eqb (path hr) "/health" then
    match method hr with
    | GET => full_dispatch_request health
    | POST => fun st => (Response 405 ErrorPage, st, [])
    end
  else if String.eqb (path hr) "/predict" then
    match method hr with
    | POST => full_dispatch_request (predict w fs (payload hr))
    | GET => fun st => (Response 405 ErrorPage, st, [])
    end
  else fun st => (Response 404 ErrorPage, st, []).

(** A serving process: the requests in the order they are handled, each
    with the artifact file as it is on disk at that time.  For each
    request: the response, the state after it and its trace. *)
Fixpoint serve (w : werkzeug) (reqs : list (file * http_request))
    (st : attrs) : list (response * attrs * list event) :=
  match reqs with
  | [] => []
  | (fs, hr) :: rest =>
      let out := app w fs hr st in
      out :: serve w rest (out.1.2)
  end.

End Serve.

Definition post_predict (r : request) : Serve.http_request :=
  Serve.HttpRequest Serve.POST "/predict" r.

(** ** train.py *)

Module Train.

(** The dictionary that [main] pickles to the model file once training is
    done.  The fitted classifier and vectorizer are its first two entries;
    the parameters, the two metric dictionaries and the seed are plain
    data, taken here as any objects. *)
Definition artifact
    (best_lr dv best_params val_metrics test_metrics random_state : pyobj)
  : gmap string pyobj :=
  {[ "model" := best_lr;
     "dict_vectorizer" := dv;
     "best_params" := best_params;
     "validation_metrics" := val_metrics;
     "test_metrics" := test_metrics;
     "random_state" := random_state ]}.

End Train.

(** ** Fixtures: small artifacts and requests *)

Definition no_method {A B} (cls meth : string) : A -> result B := fun _ =>
  Raise (Exception ("'" +:+ cls +:+ "' object has no attribute '" +:+ meth +:+ "'")).

(** A classifier that scores every record with the same probability. *)
Definition constant_model (p : Q) : pyobj :=
  PyObj (no_method "LogisticRegression" "transform")
        (fun X => Ok [[Finite (1 - p); Finite p]]).

(** A vectorizer with an empty vocabulary: every record encodes to the
    empty row. *)
Definition empty_dv : pyobj :=
  PyObj (fun records => Ok (map (fun _ => []) records))
        (no_method "DictVectorizer" "predict_proba").

(** A vectorizer whose [transform] raises. *)
Definition failing_dv (msg : string) : pyobj :=
  PyObj (fun _ => Raise (Exception msg))
        (no_method "DictVectorizer" "predict_proba").

Definition artifact_of (model dv : pyobj) : file :=
  Pickled {[ "model" := model; "dict_vectorizer" := dv ]}.

Definition record_age (n : Z) : json := JObj {[ "Age" := JInt n ]}.

Definition json_request (v : json) : request := Request true (Parsed v).

(** A vectorizer with the single feature [Age], passed through. *)
Definition age_dv : pyobj :=
  PyObj (fun records =>
           Ok (map (fun record =>
                      match record with
                      | JObj m =>
                          match m !! "Age" with
                          | Some (JInt n) => [Finite (inject_Z n)]
                          | _ => [Finite 0]
                          end
                      | _ => [Finite 0]
                      end) records))
        (no_method "DictVectorizer" "predict_proba").

(** A classifier whose probability is the first feature, in hundredths. *)
Definition percent_model : pyobj :=
  PyObj (no_method "LogisticRegression" "transform")
        (fun X =>
           Ok (map (fun row =>
                      match row with
                      | Finite x :: _ =>
                          [Finite (1 - x * (1 # 100)); Finite (x * (1 # 100))]
                      | _ => [Finite 1; Finite 0]
                      end) X)).

(** A classifier that returns the same two values for every record. *)
Definition fixed_model (negative positive : pyfloat) : pyobj :=
  PyObj (no_method "LogisticRegression" "transform")
        (fun X => Ok [[negative; positive]]).

(** A classifier fitted on one class only: a single column. *)
Definition one_class_model : pyobj :=
  PyObj (no_method "LogisticRegression" "transform")
        (fun X => Ok [[Finite 1]]).


(** ** Pure readings of the pipeline

    What the effectful definitions above compute, as plain functions; the
    run lemmas below tie the two together. *)

(** The pair [load_artifact] returns on a file, when it returns. *)
Definition loadable (fs : file) : option (pyobj * pyobj) :=
  match fs with
  | Pickled artifact =>
      model ← artifact !! "model";
      dv ← artifact !! "dict_vectorizer";
      Some (model, dv)
  | _ => None
  end.

(** The exception [load_artifact] raises on a file it cannot load. *)
Definition load_error (fs : file) : pyexn :=
  match fs with
  | Missing => Exception "[Errno 2] No such file or directory: 'model.bin'"
  | Corrupt msg => Exception msg
  | Pickled artifact =>
      match artifact !! "model" with
      | None => Exception "'model'"
      | Some _ => Exception "'dict_vectorizer'"
      end
  end.

(** The model's positive-class probability for a record:
    [model.predict_proba(dv.transform([data]))[0, 1]]. *)
Definition score (model dv : pyobj) (data : json) : result pyfloat :=
  match transform dv [data] with
  | Raise e => Raise e
  | Ok X =>
      match predict_proba model X with
      | Raise e => Raise e
      | Ok P =>
          match P !! 0%nat ≫= (.!! 1%nat) with
          | Some x => Ok x
          | None => Raise (Exception "index out of bounds")
          end
      end
  end.

(** The method calls made while scoring. *)
Definition score_trace (dv : pyobj) (data : json) : list event :=
  EvCall "transform" ::
  match transform dv [data] with
  | Ok _ => [EvCall "predict_proba"]
  | Raise _ => []
  end.

(** The model and vectorizer a prediction request works with: the cached
    pair once [predict.model] is set, else the pair loaded from the file. *)
Definition in_use (st : attrs) (fs : file) : option (pyobj * pyobj) :=
  match st !! "model" with
  | Some model => dv ← st !! "dv"; Some (model, dv)
  | None => loadable fs
  end.

(** The state and the trace of the lazy-load step. *)
Definition after_load (st : attrs) (fs : file) : attrs :=
  match st !! "model", loadable fs with
  | None, Some (model, dv) => <["dv" := dv]> (<["model" := model]> st)
  | _, _ => st
  end.

Definition load_trace (st : attrs) (fs : file) : list event :=
  match st !! "model" with
  | Some _ => []
  | None =>
      EvOpen MODEL_PATH ::
      match loadable fs with
      | Some _ => [EvSetAttr "model"; EvSetAttr "dv"]
      | None => []
      end
  end.

Definition prediction_fields (probability : pyfloat) (prediction : Z)
  : gmap string json :=
  {[ "probability" := JFloat probability; "prediction" := JInt prediction ]}.

Definition error_fields (msg : string) : gmap string json :=
  {[ "error" := JStr msg ]}.

(** "[x] rounded to four decimal places", in the words of the
    specification, to compare [py_round4] with: a finite [x] goes to a
    decimal with four places, [k] ten-thousandths, at most half a unit of
    the fourth place away from it; an infinity or NaN has no decimal places
    and stays as it is. *)
Definition rounded_to_4_places (x y : pyfloat) : Prop :=
  match x with
  | Finite q =>
      ∃ k : Z, y = Finite (k # 10000)
               ∧ ((k # 10000) - q <= 1 # 20000)%Q
               ∧ (q - (k # 10000) <= 1 # 20000)%Q
  | _ => y = x
  end.

(** A float in the closed interval from 0 to 1. *)
Definition in_unit (x : pyfloat) : Prop :=
  match x with
  | Finite q => (0 <= q)%Q ∧ (q <= 1)%Q
  | _ => False
  end.

(** A float strictly above one half. *)
Definition above_half (x : pyfloat) : Prop :=
  match x with
  | Finite q => (1 # 2 < q)%Q
  | Inf negative => negative = false
  | NaN => False
  end.

#[export] Instance event_eq_dec : EqDecision event.
Proof. solve_decision. Defined.

(** The five ways a run of [Serve.predict] can go. *)
Inductive predict_run (w : werkzeug) (fs : file) (r : request) (st : attrs)
  : result response * attrs * list event → Prop :=
| run_abort e :
    get_json w r = Raise e →
    predict_run w fs r st (Raise e, st, [])
| run_falsy data :
    get_json w r = Ok data →
    truthy data = false →
    predict_run w fs r st
      (Ok (jsonify (error_fields "No input data provided") 400), st, [])
| run_load_fails data :
    get_json w r = Ok data →
    truthy data = true →
    st !! "model" = None →
    loadable fs = None →
    predict_run w fs r st (Raise (load_error fs), st, [EvOpen MODEL_PATH])
| run_no_dv data model :
    get_json w r = Ok data →
    truthy data = true →
    st !! "model" = Some model →
    st !! "dv" = None →
    predict_run w fs r st
      (Ok (jsonify
             (error_fields "'function' object has no attribute 'dv'") 500),
       st, [])
| run_scored data model dv :
    get_json w r = Ok data →
    truthy data = true →
    in_use st fs = Some (model, dv) →
    predict_run w fs r st
      (Ok (match score model dv data with
           | Ok p =>
               jsonify
                 (prediction_fields (py_round4 p) (int_of_bool (ge_half p)))
                 200
           | Raise e => jsonify (error_fields (exn_str e)) 500
           end),
       after_load st fs,
       load_trace st fs ++ score_trace dv data).

(** The trace of a whole run: the traces of its requests, in order. *)
Definition total_trace (run : list (response * attrs * list event))
  : list event :=
  concat (map snd run).

(** How many times [predict.model] was stored in a trace. *)
Definition loads_done (t : list event) : nat :=
  length (filter (λ e, e = EvSetAttr "model") t).

(** A request loads the artifact when [load_artifact] is called and
    returns: the handler opens the file of the request, and that file
    unpickles to a dict that holds a model and a vectorizer (what
    [load_artifact] does with an opened file depends on the file alone).
    The request comes paired with its outcome in the run. *)
Definition loads_artifact
  (p : (file * Serve.http_request) * (response * attrs * list event)) : Prop :=
  EvOpen MODEL_PATH ∈ p.2.2 ∧ is_Some (loadable p.1.1).

#[export] Instance loads_artifact_dec p : Decision (loads_artifact p).
Proof. unfold loads_artifact. apply _. Defined.

(** How many requests of a run load the artifact. *)
Definition artifact_loads (reqs : list (file * Serve.http_request))
  (run : list (response * attrs * list event)) : nat :=
  length (filter loads_artifact (zip reqs run)).

(** An event that is a method call: neither the file nor the attributes
    of [predict] are touched. *)
Definition is_call (e : event) : Prop :=
  match e with
  | EvCall _ => True
  | _ => False
  end.

(** What one request does to the cache: nothing, a load that fails, or the
    load that fills it. *)
Inductive step_kind (fs : file) (st : attrs)
  : response * attrs * list event → Prop :=
| step_idle resp t :
    Forall is_call t →
    step_kind fs st (resp, st, t)
| step_load_failed resp :
    st !! "model" = None →
    loadable fs = None →
    step_kind fs st (resp, st, [EvOpen MODEL_PATH])
| step_load_done resp model dv t :
    st !! "model" = None →
    loadable fs = Some (model, dv) →
    Forall is_call t →
    step_kind fs st
      (resp, <["dv" := dv]> (<["model" := model]> st),
       EvOpen MODEL_PATH :: EvSetAttr "model" :: EvSetAttr "dv" :: t).

(** ** Run lemmas *)

Ltac unfold_py :=
  unfold mbind, M_bind, mret, M_ret, bind, ret, raise, lift, tell,
    try_except, hasattr, getattr, setattr in *.

Lemma load_artifact_run fs st :
  Serve.load_artifact fs st =
    (match loadable fs with
     | Some p => Ok p
     | None => Raise (load_error fs)
     end, st, [EvOpen MODEL_PATH]).
Proof.
  unfold Serve.load_artifact, pickle_load, getitem, loadable, load_error.
  unfold_py.
  destruct fs as [| msg | artifact]; simpl; try reflexivity.
  destruct (artifact !! "model") as [model|]; simpl; [|reflexivity].
  destruct (artifact !! "dict_vectorizer") as [dv|]; reflexivity.
Qed.

Lemma load_artifacts_run fs st :
  Predict.load_artifacts fs st = Serve.load_artifact fs st.
Proof. reflexivity. Qed.

(** The [try] block with both attributes stored. *)
Lemma predict_try_run data st model dv :
  st !! "model" = Some model →
  st !! "dv" = Some dv →
  Serve.predict_try data st =
    (match score model dv data with
     | Ok p =>
         Ok (jsonify (prediction_fields (py_round4 p) (int_of_bool (ge_half p)))
                     200)
     | Raise e => Raise e
     end, st, score_trace dv data).
Proof.
  intros Hm Hdv.
  unfold Serve.predict_try, call_transform, call_predict_proba, getitem2,
    score, score_trace.
  unfold_py. rewrite Hdv. simpl.
  destruct (transform dv [data]) as [X|e]; simpl; [|reflexivity].
  rewrite Hm. simpl.
  destruct (predict_proba model X) as [P|e]; simpl; [|reflexivity].
  destruct (P !! 0%nat) as [row|]; simpl; [|reflexivity].
  destruct (row !! 1%nat) as [x|]; reflexivity.
Qed.

(** The [try] block when [predict.dv] is not set. *)
Lemma predict_try_no_dv data st :
  st !! "dv" = None →
  Serve.predict_try data st =
    (Raise (Exception "'function' object has no attribute 'dv'"), st, []).
Proof.
  intros Hdv. unfold Serve.predict_try. unfold_py. rewrite Hdv. reflexivity.
Qed.

(** [get_json] aborts: the exception leaves the view at once. *)
Lemma predict_abort w fs r st e :
  get_json w r = Raise e →
  Serve.predict w fs r st = (Raise e, st, []).
Proof.
  intros Hj. unfold Serve.predict. unfold_py. rewrite Hj. reflexivity.
Qed.

(** A payload that is false in Python is answered with 400 at once. *)
Lemma predict_falsy w fs r st data :
  get_json w r = Ok data →
  truthy data = false →
  Serve.predict w fs r st =
    (Ok (jsonify (error_fields "No input data provided") 400), st, []).
Proof.
  intros Hj Ht. unfold Serve.predict. unfold_py. rewrite Hj, Ht. reflexivity.
Qed.

(** The load fails: its exception leaves the view, nothing is stored. *)
Lemma predict_load_fails w fs r st data :
  get_json w r = Ok data →
  truthy data = true →
  st !! "model" = None →
  loadable fs = None →
  Serve.predict w fs r st = (Raise (load_error fs), st, [EvOpen MODEL_PATH]).
Proof.
  intros Hj Ht Hm Hl. unfold Serve.predict.
  unfold mbind, M_bind, bind at 1. unfold lift at 1. rewrite Hj, Ht. simpl.
  unfold bind at 1. unfold hasattr at 1. rewrite Hm.
  rewrite bool_decide_eq_false_2 by (intros [? ?]; discriminate). simpl.
  unfold bind at 1. unfold bind at 1.
  rewrite load_artifact_run, Hl. reflexivity.
Qed.

(** The model and vectorizer are at hand: the request is scored. *)
Lemma predict_scored w fs r st data model dv :
  get_json w r = Ok data →
  truthy data = true →
  in_use st fs = Some (model, dv) →
  Serve.predict w fs r st =
    (Ok (match score model dv data with
         | Ok p =>
             jsonify (prediction_fields (py_round4 p) (int_of_bool (ge_half p)))
                     200
         | Raise e => jsonify (error_fields (exn_str e)) 500
         end),
     after_load st fs,
     load_trace st fs ++ score_trace dv data).
Proof.
  intros Hj Ht Hu. unfold Serve.predict.
  unfold mbind, M_bind, bind at 1. unfold lift at 1. rewrite Hj, Ht. simpl.
  unfold bind at 1. unfold hasattr at 1.
  unfold in_use in Hu. unfold after_load, load_trace.
  destruct (st !! "model") as [m|] eqn:Hm.
  - destruct (st !! "dv") as [d|] eqn:Hdv; simpl in Hu; [|discriminate].
    injection Hu as -> ->.
    rewrite bool_decide_eq_true_2 by eauto. simpl.
    unfold bind at 1. unfold ret at 1. unfold try_except.
    rewrite (predict_try_run data st model dv Hm Hdv).
    destruct (score model dv data); unfold ret; simpl;
      rewrite ?app_nil_r; reflexivity.
  - rewrite bool_decide_eq_false_2 by (intros [? ?]; discriminate). simpl.
    unfold bind at 1. unfold bind at 1. unfold bind at 1.
    rewrite load_artifact_run, Hu. simpl.
    unfold try_except.
    rewrite (predict_try_run data _ model dv)
      by (by simplify_map_eq).
    destruct (score model dv data); unfold ret; simpl;
      rewrite ?app_nil_r; reflexivity.
Qed.

(** [predict.model] is set and [predict.dv] is not: the [try] block fails
    on the attribute and the handler reports it. *)
Lemma predict_no_dv w fs r st data model :
  get_json w r = Ok data →
  truthy data = true →
  st !! "model" = Some model →
  st !! "dv" = None →
  Serve.predict w fs r st =
    (Ok (jsonify (error_fields "'function' object has no attribute 'dv'") 500),
     st, []).
Proof.
  intros Hj Ht Hm Hdv. unfold Serve.predict.
  unfold mbind, M_bind, bind at 1. unfold lift at 1. rewrite Hj, Ht. simpl.
  unfold bind at 1. unfold hasattr at 1. rewrite Hm.
  rewrite bool_decide_eq_true_2 by eauto. simpl.
  unfold bind at 1. unfold ret at 1. unfold try_except.
  rewrite (predict_try_no_dv data st Hdv). reflexivity.
Qed.

(** Every run of the handler is one of the five. *)
Lemma predict_run_total w fs r st :
  predict_run w fs r st (Serve.predict w fs r st).
Proof.
  destruct (get_json w r) as [data|e] eqn:Hj.
  2: { rewrite (predict_abort w fs r st e Hj). by constructor. }
  destruct (truthy data) eqn:Ht.
  2: { rewrite (predict_falsy w fs r st data Hj Ht). by econstructor. }
  destruct (in_use st fs) as [[model dv]|] eqn:Hu.
  { rewrite (predict_scored w fs r st data model dv Hj Ht Hu).
    by econstructor. }
  unfold in_use in Hu. destruct (st !! "model") as [model|] eqn:Hm.
  - destruct (st !! "dv") as [dv|] eqn:Hdv; [discriminate|].
    rewrite (predict_no_dv w fs r st data model Hj Ht Hm Hdv).
    by econstructor.
  - rewrite (predict_load_fails w fs r st data Hj Ht Hm Hu).
    by econstructor.
Qed.

Lemma app_post_predict w fs r st :
  Serve.app w fs (post_predict r) st =
    full_dispatch_request (Serve.predict w fs r) st.
Proof. reflexivity. Qed.

Lemma get_json_raise w r e :
  get_json w r = Raise e →
  exn_http e = Some 400 ∨ exn_http e = Some 415 ∨ exn_http e = None.
Proof.
  unfold get_json.
  destruct (is_json r), (loads r), w; intros [= <-]; auto.
Qed.

Lemma load_error_http fs : exn_http (load_error fs) = None.
Proof.
  destruct fs as [| msg | artifact]; simpl; try reflexivity.
  by destruct (artifact !! "model").
Qed.

(** The standalone function, run. *)
Lemma standalone_run fs features st :
  Predict.predict fs features st =
    match loadable fs with
    | Some (model, dv) =>
        (match score model dv features with
         | Ok p => Ok (prediction_fields p (int_of_bool (ge_half p)))
         | Raise e => Raise e
         end, st, EvOpen MODEL_PATH :: score_trace dv features)
    | None => (Raise (load_error fs), st, [EvOpen MODEL_PATH])
    end.
Proof.
  unfold Predict.predict. unfold mbind, M_bind. unfold bind at 1.
  rewrite load_artifacts_run, load_artifact_run.
  destruct (loadable fs) as [[model dv]|]; [|reflexivity].
  unfold call_transform, call_predict_proba, getitem2, score, score_trace.
  unfold_py. simpl.
  destruct (transform dv [features]) as [X|e]; simpl; [|reflexivity].
  destruct (predict_proba model X) as [P|e]; simpl; [|reflexivity].
  destruct (P !! 0%nat) as [row|]; simpl; [|reflexivity].
  destruct (row !! 1%nat) as [x|]; reflexivity.
Qed.

(** ** Rounding *)

Section Rounding.

Variables (n : Z) (d : positive).

Let f := n / Z.pos d.

Lemma round_half_even_floor :
  (f ≤ round_half_even (n # d) ≤ f + 1)%Z.
Proof.
  unfold round_half_even, f. simpl.
  destruct (2 * (n mod Z.pos d) ?= Z.pos d); [|lia..].
  destruct (Z.even (n / Z.pos d)); lia.
Qed.

Lemma round_half_even_lower k :
  (k * Z.pos d ≤ n)%Z → (k ≤ round_half_even (n # d))%Z.
Proof.
  intros Hk. pose proof round_half_even_floor as [Hf _].
  assert (k ≤ f)%Z; [|lia].
  apply Z.div_le_lower_bound; lia.
Qed.

Lemma round_half_even_upper k :
  (n ≤ k * Z.pos d)%Z → (round_half_even (n # d) ≤ k)%Z.
Proof.
  intros Hk. unfold round_half_even. simpl.
  pose proof (Z.div_mod n (Z.pos d) ltac:(lia)) as Hdiv.
  pose proof (Z.mod_pos_bound n (Z.pos d) ltac:(lia)) as Hmod.
  destruct (Z.compare_spec (2 * (n mod Z.pos d)) (Z.pos d)) as [He|Hlt|Hgt].
  - destruct (Z.even (n / Z.pos d)); nia.
  - nia.
  - nia.
Qed.

End Rounding.

Lemma round4_in_unit q :
  (0 <= q)%Q → (q <= 1)%Q → (0 <= round4 q)%Q ∧ (round4 q <= 1)%Q.
Proof.
  destruct q as [n d]. unfold Qle, round4. simpl. intros H0 H1.
  pose proof (round_half_even_lower (n * 10000) (d * 1) 0 ltac:(lia)).
  pose proof (round_half_even_upper (n * 10000) (d * 1) 10000 ltac:(lia)).
  unfold Qmult in *. simpl in *. lia.
Qed.

Lemma round4_ge_half q :
  Qle_bool (1 # 2) q = true → Qle_bool (1 # 2) (round4 q) = true.
Proof.
  rewrite !Qle_bool_iff. destruct q as [n d].
  unfold Qle, round4. simpl. intros Hq.
  pose proof (round_half_even_lower (n * 10000) (d * 1) 5000 ltac:(lia)).
  unfold Qmult in *. simpl in *. lia.
Qed.

Lemma round4_above_half q :
  (1 # 2 < round4 q)%Q → Qle_bool (1 # 2) q = true.
Proof.
  rewrite Qle_bool_iff. destruct q as [n d].
  unfold Qlt, Qle, round4. simpl. intros Hq.
  pose proof (round_half_even_floor (n * 10000) (d * 1)) as [_ Hf].
  pose proof (Z.mul_div_le (n * 10000) (Z.pos (d * 1)) ltac:(lia)).
  unfold Qmult in *. simpl in *. nia.
Qed.

Lemma round_half_even_nearest n d :
  2 * (round_half_even (n # d) * Z.pos d - n) ≤ Z.pos d
  ∧ 2 * (n - round_half_even (n # d) * Z.pos d) ≤ Z.pos d.
Proof.
  unfold round_half_even. simpl.
  pose proof (Z.div_mod n (Z.pos d) ltac:(lia)) as Hdiv.
  pose proof (Z.mod_pos_bound n (Z.pos d) ltac:(lia)) as Hmod.
  destruct (Z.compare_spec (2 * (n mod Z.pos d)) (Z.pos d)) as [He|Hlt|Hgt].
  - destruct (Z.even (n / Z.pos d)); nia.
  - nia.
  - nia.
Qed.

Lemma round4_nearest q :
  (round4 q - q <= 1 # 20000)%Q ∧ (q - round4 q <= 1 # 20000)%Q.
Proof.
  destruct q as [n d].
  pose proof (round_half_even_nearest (n * 10000) (d * 1)) as [H1 H2].
  unfold Qle, Qminus, Qplus, Qopp, round4, Qmult. simpl.
  rewrite ?Pos2Z.inj_mul in *. simpl in *. nia.
Qed.

(** [round(x, 4)] rounds to four decimal places. *)
Lemma py_round4_rounded x : rounded_to_4_places x (py_round4 x).
Proof.
  destruct x as [q| |]; simpl; try reflexivity.
  exists (round_half_even (q * (10000 # 1))).
  split; [reflexivity|]. apply (round4_nearest q).
Qed.

Lemma py_round4_in_unit x : in_unit x → in_unit (py_round4 x).
Proof.
  destruct x as [q| |]; simpl; try tauto.
  intros [H0 H1]. by apply round4_in_unit.
Qed.

Lemma py_round4_ge_half x : ge_half x = true → ge_half (py_round4 x) = true.
Proof. destruct x as [q| |]; simpl; auto using round4_ge_half. Qed.

Lemma py_round4_above_half x : above_half (py_round4 x) → ge_half x = true.
Proof.
  destruct x as [q|[]|]; simpl; try done. apply round4_above_half.
Qed.

Lemma int_of_bool_cases b : int_of_bool b = 0 ∨ int_of_bool b = 1.
Proof. destruct b; auto. Qed.

Lemma int_of_bool_1 b : int_of_bool b = 1 ↔ b = true.
Proof. destruct b; simpl; split; (done || lia). Qed.

(** ** The prediction result *)

Ltac predict_cases w fs r st :=
  let out := fresh "out" in
  let Hrun := fresh "Hrun" in
  pose proof (predict_run_total w fs r st) as Hrun;
  rewrite ?app_post_predict in *;
  unfold full_dispatch_request in *;
  set (out := Serve.predict w fs r st) in *;
  clearbody out; destruct Hrun.

(** C1, as stated, fails for the HTTP handler: the handler thresholds the
    probability before rounding it.  A model that scores a record 0.49996
    makes the handler return probability 0.5, yet prediction 0. *)
Lemma rounded_probability_at_threshold :
  (Serve.app Werkzeug23
     (artifact_of (constant_model (49996 # 100000)) empty_dv)
     (post_predict (json_request (record_age 34))) ∅).1.1
  = jsonify (prediction_fields (Finite (5000 # 10000)) 0) 200
  ∧ ge_half (Finite (5000 # 10000)) = true.
Proof. vm_compute. split; reflexivity. Qed.

(** C1, amended.  When vectorization and scoring succeed with the model's
    probability [p], the standalone function returns [p] itself and the
    HTTP handler returns [p] rounded to four decimals, both with the same
    prediction.  The prediction is 0 or 1, and it is 1 exactly when the
    unrounded [p] is at least 0.5.  For the rounded probability of the
    handler only this holds: prediction 1 implies that it is at least
    0.5, and it being above 0.5 implies prediction 1.  If [p] lies between
    0 and 1, so does the probability returned, rounded or not. *)
Theorem prediction_thresholds_model_probability model dv data p :
  score model dv data = Ok p →
  (∀ fs st, loadable fs = Some (model, dv) →
     (Predict.predict fs data st).1.1
     = Ok (prediction_fields p (int_of_bool (ge_half p))))
  ∧ (∀ w fs r st,
       get_json w r = Ok data → truthy data = true →
       in_use st fs = Some (model, dv) →
       (Serve.app w fs (post_predict r) st).1.1
       = jsonify (prediction_fields (py_round4 p) (int_of_bool (ge_half p)))
                 200)
  ∧ (int_of_bool (ge_half p) = 0 ∨ int_of_bool (ge_half p) = 1)
  ∧ (int_of_bool (ge_half p) = 1 ↔ ge_half p = true)
  ∧ (int_of_bool (ge_half p) = 1 → ge_half (py_round4 p) = true)
  ∧ (above_half (py_round4 p) → int_of_bool (ge_half p) = 1)
  ∧ (in_unit p → in_unit (py_round4 p)).
Proof.
  intros Hs. repeat split.
  - intros fs st Hl. by rewrite standalone_run, Hl, Hs.
  - intros w fs r st Hj Ht Hu.
    rewrite app_post_predict. unfold full_dispatch_request.
    by rewrite (predict_scored w fs r st data model dv Hj Ht Hu), Hs.
  - apply int_of_bool_cases.
  - apply int_of_bool_1.
  - apply int_of_bool_1.
  - intros H1. apply int_of_bool_1 in H1. by apply py_round4_ge_half.
  - intros Ha. apply int_of_bool_1. by apply py_round4_above_half.
  - apply py_round4_in_unit.
Qed.

Lemma prediction_thresholds_model_probability_witness :
  score (constant_model (7 # 10)) empty_dv (record_age 34)
    = Ok (Finite (7 # 10))
  ∧ (Predict.predict (artifact_of (constant_model (7 # 10)) empty_dv)
       (record_age 34) ∅).1.1
    = Ok (prediction_fields (Finite (7 # 10)) 1).
Proof.
  split; [reflexivity|].
  apply (prediction_thresholds_model_probability
           (constant_model (7 # 10)) empty_dv (record_age 34)
           (Finite (7 # 10)) eq_refl).
  reflexivity.
Defined.

(** ** Rejected requests *)

(** C2, as stated, fails on a body that overflows the parser: on a body
    announced as JSON and nested too deeply, [json.loads] raises
    [RecursionError], which [get_json] does not catch; the exception leaves
    the view and the request is answered with the generic 500 response, not
    with a client error.  Nothing is loaded or called on the way. *)
Lemma deeply_nested_body_is_server_error :
  Serve.app Werkzeug23 (artifact_of (constant_model (7 # 10)) empty_dv)
    (post_predict
       (Request true (TooDeep "maximum recursion depth exceeded"))) ∅
  = (Response 500 ErrorPage, ∅, []).
Proof. vm_compute. reflexivity. Qed.

(** C2, amended.  A POST /predict request whose body [json.loads] does not
    parse leaves the state as it was and nothing is done on the way: the
    artifact file is not opened, no attribute is stored, no method of the
    vectorizer or the model is called.  The response is a client error, of
    status between 400 and 499, when the body is not announced as JSON or
    [json.loads] fails with a [ValueError] (the body is absent or is not
    JSON); it is the generic 500 response when the body is announced as
    JSON and [json.loads] fails with [RecursionError]. *)
Theorem unparsed_body_touches_nothing w fs r st :
  (∀ v, loads r ≠ Parsed v) →
  (Serve.app w fs (post_predict r) st).1.2 = st
  ∧ (Serve.app w fs (post_predict r) st).2 = []
  ∧ (is_json r = false ∨ loads r = Malformed →
     400 ≤ status (Serve.app w fs (post_predict r) st).1.1 < 500)
  ∧ (∀ msg, is_json r = true → loads r = TooDeep msg →
     (Serve.app w fs (post_predict r) st).1.1 = Response 500 ErrorPage).
Proof.
  intros Hl.
  assert (get_json w r = Ok JNull ∨ ∃ e, get_json w r = Raise e) as Hj.
  { unfold get_json.
    destruct (is_json r), (loads r) as [v| |msg], w; eauto;
      by destruct (Hl v). }
  rewrite app_post_predict. unfold full_dispatch_request.
  destruct Hj as [Hj|[e Hj]].
  - rewrite (predict_falsy w fs r st JNull Hj eq_refl). cbn [fst snd].
    split_and!; try reflexivity.
    + intros _. simpl. lia.
    + intros msg Hjson Hdeep. unfold get_json in Hj.
      rewrite Hjson, Hdeep in Hj. discriminate Hj.
  - rewrite (predict_abort w fs r st e Hj). cbn [fst snd].
    split_and!; try reflexivity.
    + intros Hc.
      assert (exn_http e = Some 400 ∨ exn_http e = Some 415) as He.
      { unfold get_json in Hj.
        destruct Hc as [Hc|Hc]; rewrite Hc in Hj;
          destruct (is_json r), w; inversion Hj; auto. }
      destruct He as [-> | ->]; simpl; lia.
    + intros msg Hjson Hdeep. unfold get_json in Hj.
      rewrite Hjson, Hdeep in Hj. by injection Hj as <-.
Qed.

Lemma unparsed_body_touches_nothing_witness :
  (∀ v, loads (Request true Malformed) ≠ Parsed v)
  ∧ (Serve.app Werkzeug23 Missing (post_predict (Request true Malformed)) ∅).1.2
    = ∅
  ∧ (Serve.app Werkzeug23 Missing (post_predict (Request true Malformed)) ∅).2
    = []
  ∧ 400 ≤ status (Serve.app Werkzeug23 Missing
                    (post_predict (Request true Malformed)) ∅).1.1 < 500.
Proof.
  assert (∀ v, loads (Request true Malformed) ≠ Parsed v) as Hl
    by (intros v Hv; discriminate Hv).
  pose proof (unparsed_body_touches_nothing
                Werkzeug23 Missing (Request true Malformed) ∅ Hl)
    as (Hst & Htr & H4 & _).
  split; [exact Hl|]. split; [exact Hst|]. split; [exact Htr|].
  apply H4. right. reflexivity.
Defined.

(** C3, as stated, fails on the empty object: it is false in Python, so
    the handler answers 400 before it loads or scores anything. *)
Lemma empty_object_is_rejected :
  Serve.app Werkzeug23 (artifact_of (constant_model (7 # 10)) empty_dv)
    (post_predict (json_request (JObj ∅))) ∅
  = (jsonify (error_fields "No input data provided") 400, ∅, []).
Proof. vm_compute. reflexivity. Qed.

(** C3, amended.  Every request whose body [get_json] parses to a JSON
    object with at least one member is accepted: the response is not a
    client error, and with a model and vectorizer at hand (cached, or
    loaded by this request) the handler calls the vectorizer on the record,
    then the model if the vectorizer returned, and answers with the
    outcome. *)
Theorem nonempty_object_is_scored w fs r st (m : gmap string json) :
  get_json w r = Ok (JObj m) →
  m ≠ ∅ →
  ¬ (400 ≤ status (Serve.app w fs (post_predict r) st).1.1 < 500)
  ∧ (∀ model dv,
       in_use st fs = Some (model, dv) →
       Serve.app w fs (post_predict r) st
       = (match score model dv (JObj m) with
          | Ok p =>
              jsonify
                (prediction_fields (py_round4 p) (int_of_bool (ge_half p)))
                200
          | Raise e => jsonify (error_fields (exn_str e)) 500
          end,
          after_load st fs,
          load_trace st fs ++ score_trace dv (JObj m))
       ∧ EvCall "transform" ∈ (Serve.app w fs (post_predict r) st).2).
Proof.
  intros Hj Hne.
  assert (truthy (JObj m) = true) as Ht.
  { simpl. apply negb_true_iff, Nat.eqb_neq.
    by rewrite map_size_empty_iff. }
  split.
  - predict_cases w fs r st; simpl; try lia; try congruence.
    + rewrite load_error_http. simpl. lia.
    + destruct (score model dv data); simpl; lia.
  - intros model dv Hu. rewrite app_post_predict.
    unfold full_dispatch_request.
    rewrite (predict_scored w fs r st (JObj m) model dv Hj Ht Hu).
    split; [reflexivity|]. simpl. unfold score_trace.
    apply elem_of_app. right. apply elem_of_cons. by left.
Qed.

Lemma nonempty_object_is_scored_witness :
  get_json Werkzeug23 (json_request (record_age 34))
  = Ok (JObj {[ "Age" := JInt 34 ]})
  ∧ {[ "Age" := JInt 34 ]} ≠ (∅ : gmap string json)
  ∧ in_use ∅ (artifact_of percent_model age_dv) = Some (percent_model, age_dv)
  ∧ ¬ (400 ≤ status
         (Serve.app Werkzeug23 (artifact_of percent_model age_dv)
            (post_predict (json_request (record_age 34))) ∅).1.1 < 500)
  ∧ Serve.app Werkzeug23 (artifact_of percent_model age_dv)
      (post_predict (json_request (record_age 34))) ∅
    = (match score percent_model age_dv (JObj {[ "Age" := JInt 34 ]}) with
       | Ok p =>
           jsonify (prediction_fields (py_round4 p) (int_of_bool (ge_half p)))
                   200
       | Raise e => jsonify (error_fields (exn_str e)) 500
       end,
       after_load ∅ (artifact_of percent_model age_dv),
       load_trace ∅ (artifact_of percent_model age_dv)
         ++ score_trace age_dv (JObj {[ "Age" := JInt 34 ]}))
  ∧ EvCall "transform"
      ∈ (Serve.app Werkzeug23 (artifact_of percent_model age_dv)
           (post_predict (json_request (record_age 34))) ∅).2
  ∧ score percent_model age_dv (JObj {[ "Age" := JInt 34 ]})
    = Ok (Finite (34 # 100)).
Proof.
  assert (get_json Werkzeug23 (json_request (record_age 34))
          = Ok (JObj {[ "Age" := JInt 34 ]})) as Hj by reflexivity.
  assert ({[ "Age" := JInt 34 ]} ≠ (∅ : gmap string json)) as Hne
    by apply insert_non_empty.
  assert (in_use ∅ (artifact_of percent_model age_dv)
          = Some (percent_model, age_dv)) as Hu by reflexivity.
  pose proof (nonempty_object_is_scored Werkzeug23
                (artifact_of percent_model age_dv)
                (json_request (record_age 34)) ∅ {[ "Age" := JInt 34 ]}
                Hj Hne) as [H4 Hrun].
  destruct (Hrun percent_model age_dv Hu) as [Heq Hcall].
  split; [exact Hj|]. split; [exact Hne|]. split; [exact Hu|].
  split; [exact H4|]. split; [exact Heq|]. split; [exact Hcall|].
  vm_compute. reflexivity.
Defined.

(** ** Failures while scoring *)

Lemma after_load_cached st fs model dv :
  in_use st fs = Some (model, dv) →
  after_load st fs !! "model" = Some model
  ∧ after_load st fs !! "dv" = Some dv.
Proof.
  unfold in_use, after_load. intros Hu.
  destruct (st !! "model") as [m|] eqn:Hm.
  - destruct (st !! "dv") as [d|] eqn:Hdv; simpl in Hu; [|discriminate].
    injection Hu as -> ->. by destruct (loadable fs) as [[]|].
  - rewrite Hu. by simplify_map_eq.
Qed.

(** With both attributes stored the file plays no part. *)
Lemma predict_cached w fs r st data model dv :
  get_json w r = Ok data →
  truthy data = true →
  st !! "model" = Some model →
  st !! "dv" = Some dv →
  Serve.predict w fs r st =
    (Ok (match score model dv data with
         | Ok p =>
             jsonify (prediction_fields (py_round4 p) (int_of_bool (ge_half p)))
                     200
         | Raise e => jsonify (error_fields (exn_str e)) 500
         end), st, score_trace dv data).
Proof.
  intros Hj Ht Hm Hdv.
  rewrite (predict_scored w fs r st data model dv Hj Ht).
  - unfold after_load, load_trace. rewrite Hm. reflexivity.
  - unfold in_use. rewrite Hm, Hdv. reflexivity.
Qed.

(** C4, as stated, fails when the failing request is the one that loads the
    artifact: the load step runs before the [try] block, so the request
    that ends in a 500 response has also stored the model and the
    vectorizer. *)
Lemma failed_first_request_changes_state :
  (Serve.app Werkzeug23
     (artifact_of (constant_model (7 # 10)) (failing_dv "boom"))
     (post_predict (json_request (record_age 34))) ∅).1.1
  = jsonify (error_fields "boom") 500
  ∧ (Serve.app Werkzeug23
       (artifact_of (constant_model (7 # 10)) (failing_dv "boom"))
       (post_predict (json_request (record_age 34))) ∅).1.2 !! "dv"
    = Some (failing_dv "boom")
  ∧ (Serve.app Werkzeug23
       (artifact_of (constant_model (7 # 10)) (failing_dv "boom"))
       (post_predict (json_request (record_age 34))) ∅).1.2
    ≠ ∅.
Proof.
  split; [vm_compute; reflexivity|].
  assert ((Serve.app Werkzeug23
             (artifact_of (constant_model (7 # 10)) (failing_dv "boom"))
             (post_predict (json_request (record_age 34))) ∅).1.2 !! "dv"
          = Some (failing_dv "boom")) as Hdv by (vm_compute; reflexivity).
  split; [exact Hdv|].
  intros Hempty. rewrite Hempty, lookup_empty in Hdv. discriminate Hdv.
Qed.

(** C4, amended.  For a request with a payload that is true in Python, if
    vectorization or scoring raises [e], the handler answers 500 with
    [str(e)] as the error field.  The failure leaves the cache as the load
    step left it: a cache that was already filled is unchanged, and if this
    request was the one that loaded the artifact, the pair it loaded stays
    stored.  Every later request with such a payload is scored with that
    same pair, whatever the file has become, without opening it. *)
Theorem scoring_failure_is_reported w fs r st data model dv e :
  get_json w r = Ok data →
  truthy data = true →
  in_use st fs = Some (model, dv) →
  score model dv data = Raise e →
  Serve.app w fs (post_predict r) st
  = (jsonify (error_fields (exn_str e)) 500,
     after_load st fs,
     load_trace st fs ++ score_trace dv data)
  ∧ (is_Some (st !! "model") → after_load st fs = st)
  ∧ (∀ w' fs' r' data',
       get_json w' r' = Ok data' →
       truthy data' = true →
       Serve.app w' fs' (post_predict r') (after_load st fs)
       = (match score model dv data' with
          | Ok p =>
              jsonify
                (prediction_fields (py_round4 p) (int_of_bool (ge_half p)))
                200
          | Raise e' => jsonify (error_fields (exn_str e')) 500
          end,
          after_load st fs,
          score_trace dv data')).
Proof.
  intros Hj Ht Hu Hs. repeat split.
  - rewrite app_post_predict. unfold full_dispatch_request.
    by rewrite (predict_scored w fs r st data model dv Hj Ht Hu), Hs.
  - intros [m Hm]. unfold after_load. by rewrite Hm.
  - intros w' fs' r' data' Hj' Ht'.
    destruct (after_load_cached st fs model dv Hu) as [Hm Hdv].
    rewrite app_post_predict. unfold full_dispatch_request.
    by rewrite (predict_cached w' fs' r' _ data' model dv Hj' Ht' Hm Hdv).
Qed.

Lemma scoring_failure_is_reported_witness :
  score (constant_model (7 # 10)) (failing_dv "boom") (record_age 34)
    = Raise (Exception "boom")
  ∧ Serve.app Werkzeug23
      (artifact_of (constant_model (7 # 10)) (failing_dv "boom"))
      (post_predict (json_request (record_age 34))) ∅
    = (jsonify (error_fields "boom") 500,
       after_load ∅ (artifact_of (constant_model (7 # 10)) (failing_dv "boom")),
       load_trace ∅ (artifact_of (constant_model (7 # 10)) (failing_dv "boom"))
         ++ score_trace (failing_dv "boom") (record_age 34)).
Proof.
  split; [reflexivity|].
  exact (proj1 (scoring_failure_is_reported Werkzeug23
                  (artifact_of (constant_model (7 # 10)) (failing_dv "boom"))
                  (json_request (record_age 34)) ∅ (record_age 34)
                  (constant_model (7 # 10)) (failing_dv "boom")
                  (Exception "boom") eq_refl eq_refl eq_refl eq_refl)).
Defined.

(** ** Failures while loading *)

(** C6, as stated, fails: the load is lazy and runs inside the handling of
    a POST /predict request.  With the file missing, the first request with
    a payload opens the file, the exception of the load leaves the view and
    that request is answered with the generic 500 response. *)
Lemma load_failure_inside_request :
  Serve.predict Werkzeug23 Missing (json_request (record_age 34)) ∅
  = (Raise (Exception "[Errno 2] No such file or directory: 'model.bin'"),
     ∅, [EvOpen MODEL_PATH])
  ∧ Serve.app Werkzeug23 Missing
      (post_predict (json_request (record_age 34))) ∅
    = (Response 500 ErrorPage, ∅, [EvOpen MODEL_PATH]).
Proof. split; vm_compute; reflexivity. Qed.

(** C6, amended.  If the artifact file is missing or corrupt, the load fails
    inside the handling of every POST /predict request that reaches the
    load step (a payload that is true in Python, no model cached): the
    exception is raised before the [try] block, so the handler does not
    turn it into its own error response; it leaves the view, the framework
    answers that request with the generic 500 response, and nothing is
    stored, so that the next such request tries the load again. *)
Theorem load_failure_escapes_handler w fs r st data :
  loadable fs = None →
  get_json w r = Ok data →
  truthy data = true →
  st !! "model" = None →
  Serve.predict w fs r st = (Raise (load_error fs), st, [EvOpen MODEL_PATH])
  ∧ Serve.app w fs (post_predict r) st
    = (Response 500 ErrorPage, st, [EvOpen MODEL_PATH]).
Proof.
  intros Hl Hj Ht Hm.
  pose proof (predict_load_fails w fs r st data Hj Ht Hm Hl) as Hrun.
  split; [exact Hrun|].
  rewrite app_post_predict. unfold full_dispatch_request.
  by rewrite Hrun, load_error_http.
Qed.

Lemma load_failure_escapes_handler_witness :
  loadable (Corrupt "invalid load key") = None
  ∧ Serve.app Werkzeug21 (Corrupt "invalid load key")
      (post_predict (json_request (record_age 34))) ∅
    = (Response 500 ErrorPage, ∅, [EvOpen MODEL_PATH]).
Proof.
  split; [reflexivity|].
  exact (proj2 (load_failure_escapes_handler Werkzeug21
                  (Corrupt "invalid load key")
                  (json_request (record_age 34)) ∅ (record_age 34)
                  eq_refl eq_refl eq_refl (lookup_empty _))).
Defined.

(** ** Responses *)

Lemma prediction_fields_dom p c :
  dom (prediction_fields p c) = ({[ "probability"; "prediction" ]} : gset string).
Proof.
  unfold prediction_fields.
  rewrite dom_insert_L, dom_singleton_L. set_solver.
Qed.

Lemma prediction_fields_lookup p c :
  prediction_fields p c !! "probability" = Some (JFloat p)
  ∧ prediction_fields p c !! "prediction" = Some (JInt c).
Proof.
  unfold prediction_fields. split.
  - apply lookup_insert_eq.
  - rewrite lookup_insert_ne by (intros [=]). apply lookup_singleton_eq.
Qed.

(** C8.  A POST /predict request answered with status 200 carries a JSON
    object with exactly the two fields probability and prediction:
    probability is the model's positive-class probability [p] for the
    record, rounded to four decimal places (what [round(p, 4)] returns,
    which for a finite [p] is a decimal with four places at most 0.00005
    away from [p]), and prediction is 0 or 1. *)
Theorem successful_response_fields w fs r st :
  status (Serve.app w fs (post_predict r) st).1.1 = 200 →
  ∃ data model dv p y c fields,
    get_json w r = Ok data
    ∧ in_use st fs = Some (model, dv)
    ∧ score model dv data = Ok p
    ∧ content (Serve.app w fs (post_predict r) st).1.1 = Json fields
    ∧ dom fields = ({[ "probability"; "prediction" ]} : gset string)
    ∧ fields !! "probability" = Some (JFloat y)
    ∧ y = py_round4 p
    ∧ rounded_to_4_places p y
    ∧ fields !! "prediction" = Some (JInt c)
    ∧ (c = 0 ∨ c = 1).
Proof.
  intros Hstatus. predict_cases w fs r st; simpl in Hstatus.
  - destruct (get_json_raise w r e H) as [He|[He|He]];
      rewrite He in Hstatus; simpl in Hstatus; lia.
  - lia.
  - rewrite load_error_http in Hstatus. simpl in Hstatus. lia.
  - lia.
  - destruct (score model dv data) as [p|e] eqn:Hs; simpl in Hstatus; [|lia].
    exists data, model, dv, p, (py_round4 p), (int_of_bool (ge_half p)),
      (prediction_fields (py_round4 p) (int_of_bool (ge_half p))).
    split_and!;
      first [ apply prediction_fields_dom
            | apply prediction_fields_lookup
            | apply py_round4_rounded
            | apply int_of_bool_cases
            | assumption
            | reflexivity ].
Qed.

Lemma successful_response_fields_witness :
  status (Serve.app Werkzeug23
            (artifact_of (constant_model (123456 # 1000000)) empty_dv)
            (post_predict (json_request (record_age 34))) ∅).1.1 = 200
  ∧ ∃ data model dv p y c fields,
      get_json Werkzeug23 (json_request (record_age 34)) = Ok data
      ∧ in_use ∅ (artifact_of (constant_model (123456 # 1000000)) empty_dv)
        = Some (model, dv)
      ∧ score model dv data = Ok p
      ∧ content (Serve.app Werkzeug23
                   (artifact_of (constant_model (123456 # 1000000)) empty_dv)
                   (post_predict (json_request (record_age 34))) ∅).1.1
        = Json fields
      ∧ dom fields = ({[ "probability"; "prediction" ]} : gset string)
      ∧ fields !! "probability" = Some (JFloat y)
      ∧ y = py_round4 p
      ∧ rounded_to_4_places p y
      ∧ fields !! "prediction" = Some (JInt c)
      ∧ (c = 0 ∨ c = 1).
Proof.
  assert (status (Serve.app Werkzeug23
            (artifact_of (constant_model (123456 # 1000000)) empty_dv)
            (post_predict (json_request (record_age 34))) ∅).1.1 = 200)
    as H200 by (vm_compute; reflexivity).
  split; [exact H200|].
  exact (successful_response_fields Werkzeug23
           (artifact_of (constant_model (123456 # 1000000)) empty_dv)
           (json_request (record_age 34)) ∅ H200).
Defined.

(** C9.  GET /health is answered with status 200 and the JSON object with
    the single field status set to OK, whatever the state of the process
    and whatever the artifact file is: missing, corrupt or loadable.  The
    state is left as it was and nothing is done on the way, so the file
    is neither opened nor loaded. *)
Theorem health_is_ok w fs payload st :
  Serve.app w fs (Serve.HttpRequest Serve.GET "/health" payload) st
  = (jsonify {[ "status" := JStr "OK" ]} 200, st, []).
Proof. reflexivity. Qed.

(** ** Determinism and agreement of the two programs *)

(** C7.  The result of a prediction is a function of the record and of the
    model and vectorizer in use, and of nothing else.  Two runs of the
    standalone function on files that hold the same pair return the same
    result; two requests with the same body handled with the same pair in
    use get the same response, whatever else the state and the file are;
    and the same request sent twice in a row to one process gets the same
    response twice. *)
Theorem prediction_is_deterministic data model dv :
  (∀ fs1 fs2 st1 st2,
     loadable fs1 = Some (model, dv) →
     loadable fs2 = Some (model, dv) →
     (Predict.predict fs1 data st1).1.1 = (Predict.predict fs2 data st2).1.1)
  ∧ (∀ w r fs1 fs2 st1 st2,
       get_json w r = Ok data →
       in_use st1 fs1 = Some (model, dv) →
       in_use st2 fs2 = Some (model, dv) →
       (Serve.app w fs1 (post_predict r) st1).1.1
       = (Serve.app w fs2 (post_predict r) st2).1.1)
  ∧ (∀ w r fs1 fs2 st,
       get_json w r = Ok data →
       in_use st fs1 = Some (model, dv) →
       ∃ resp st' t1 t2,
         Serve.serve w [(fs1, post_predict r); (fs2, post_predict r)] st
         = [(resp, st', t1); (resp, st', t2)]).
Proof.
  split_and!.
  - intros fs1 fs2 st1 st2 H1 H2. by rewrite !standalone_run, H1, H2.
  - intros w r fs1 fs2 st1 st2 Hj H1 H2.
    rewrite !app_post_predict. unfold full_dispatch_request.
    destruct (truthy data) eqn:Ht.
    + by rewrite (predict_scored w fs1 r st1 data model dv Hj Ht H1),
        (predict_scored w fs2 r st2 data model dv Hj Ht H2).
    + by rewrite !(predict_falsy w _ r _ data Hj Ht).
  - intros w r fs1 fs2 st Hj Hu.
    unfold Serve.serve. rewrite !app_post_predict.
    unfold full_dispatch_request.
    destruct (truthy data) eqn:Ht.
    + rewrite (predict_scored w fs1 r st data model dv Hj Ht Hu).
      cbn [fst snd].
      destruct (after_load_cached st fs1 model dv Hu) as [Hm Hdv].
      rewrite (predict_cached w fs2 r _ data model dv Hj Ht Hm Hdv).
      eauto.
    + rewrite (predict_falsy w fs1 r st data Hj Ht). cbn [fst snd].
      rewrite (predict_falsy w fs2 r st data Hj Ht). eauto.
Qed.

(** C10.  With the same model and vectorizer, the prediction pipeline of
    the HTTP handler and the standalone function agree on every record:
    when the standalone function returns probability [p] and prediction
    [c], the [try] block of the handler returns [p] rounded to four decimal
    places (what [round(p, 4)] returns, which for a finite [p] is a decimal
    with four places at most 0.00005 away from [p]) and the same [c]; when
    the standalone function raises, the [try] block raises the same
    exception.  For a request that reaches the [try] block (a payload that
    is true in Python) the response of the service is that result, or the
    500 response with the text of that exception. *)
Theorem handler_agrees_with_standalone data model dv fs :
  loadable fs = Some (model, dv) →
  (∀ st0 st,
     st !! "model" = Some model →
     st !! "dv" = Some dv →
     match (Predict.predict fs data st0).1.1 with
     | Ok fields =>
         ∃ p c y,
           fields = prediction_fields p c
           ∧ y = py_round4 p
           ∧ rounded_to_4_places p y
           ∧ (Serve.predict_try data st).1.1
             = Ok (jsonify (prediction_fields y c) 200)
     | Raise e => (Serve.predict_try data st).1.1 = Raise e
     end)
  ∧ (∀ w r fs' st0 st,
       get_json w r = Ok data →
       truthy data = true →
       in_use st fs' = Some (model, dv) →
       match (Predict.predict fs data st0).1.1 with
       | Ok fields =>
           ∃ p c y,
             fields = prediction_fields p c
             ∧ y = py_round4 p
             ∧ rounded_to_4_places p y
             ∧ (Serve.app w fs' (post_predict r) st).1.1
               = jsonify (prediction_fields y c) 200
       | Raise e =>
           (Serve.app w fs' (post_predict r) st).1.1
           = jsonify (error_fields (exn_str e)) 500
       end).
Proof.
  intros Hl. split.
  - intros st0 st Hm Hdv.
    rewrite standalone_run, Hl, (predict_try_run data st model dv Hm Hdv).
    cbn [fst snd]. destruct (score model dv data) as [p|e]; [|reflexivity].
    exists p, (int_of_bool (ge_half p)), (py_round4 p).
    split_and!; try reflexivity. apply py_round4_rounded.
  - intros w r fs' st0 st Hj Ht Hu.
    rewrite standalone_run, Hl, app_post_predict.
    unfold full_dispatch_request.
    rewrite (predict_scored w fs' r st data model dv Hj Ht Hu).
    cbn [fst snd]. destruct (score model dv data) as [p|e]; [|reflexivity].
    exists p, (int_of_bool (ge_half p)), (py_round4 p).
    split_and!; try reflexivity. apply py_round4_rounded.
Qed.

Lemma handler_agrees_with_standalone_witness :
  loadable (artifact_of (constant_model (49996 # 100000)) empty_dv)
    = Some (constant_model (49996 # 100000), empty_dv)
  ∧ match (Predict.predict
             (artifact_of (constant_model (49996 # 100000)) empty_dv)
             (record_age 34) ∅).1.1 with
    | Ok fields =>
        ∃ p c y,
          fields = prediction_fields p c
          ∧ y = py_round4 p
          ∧ rounded_to_4_places p y
          ∧ (Serve.app Werkzeug23 Missing
               (post_predict (json_request (record_age 34)))
               {[ "model" := constant_model (49996 # 100000);
                  "dv" := empty_dv ]}).1.1
            = jsonify (prediction_fields y c) 200
    | Raise e =>
        (Serve.app Werkzeug23 Missing
           (post_predict (json_request (record_age 34)))
           {[ "model" := constant_model (49996 # 100000);
              "dv" := empty_dv ]}).1.1
        = jsonify (error_fields (exn_str e)) 500
    end.
Proof.
  split; [reflexivity|].
  exact (proj2 (handler_agrees_with_standalone (record_age 34)
                  (constant_model (49996 # 100000)) empty_dv
                  (artifact_of (constant_model (49996 # 100000)) empty_dv)
                  eq_refl)
           Werkzeug23 (json_request (record_age 34)) Missing ∅
           {[ "model" := constant_model (49996 # 100000); "dv" := empty_dv ]}
           eq_refl eq_refl eq_refl).
Defined.

(** ** The cache over a run of the process *)

Lemma score_trace_calls dv data : Forall is_call (score_trace dv data).
Proof.
  unfold score_trace.
  destruct (transform dv [data]); repeat constructor.
Qed.

Lemma app_routes w fs hr st :
  (∃ resp, Serve.app w fs hr st = (resp, st, []))
  ∨ Serve.app w fs hr st
    = full_dispatch_request (Serve.predict w fs (Serve.payload hr)) st.
Proof.
  unfold Serve.app.
  destruct (String.eqb (Serve.path hr) "/"),
    (String.eqb (Serve.path hr) "/health"),
    (String.eqb (Serve.path hr) "/predict"), (Serve.method hr); eauto.
Qed.

Lemma app_step w fs hr st : step_kind fs st (Serve.app w fs hr st).
Proof.
  destruct (app_routes w fs hr st) as [[resp ->] | ->].
  { by constructor. }
  unfold full_dispatch_request.
  destruct (predict_run_total w fs (Serve.payload hr) st).
  - by constructor.
  - by constructor.
  - by constructor.
  - by constructor.
  - unfold after_load, load_trace. unfold in_use in *.
    destruct (st !! "model") as [m|] eqn:Hm.
    + constructor. apply score_trace_calls.
    + rewrite H1. simpl. constructor; auto using score_trace_calls.
Qed.

Lemma app_step_cached w fs hr st :
  is_Some (st !! "model") →
  (Serve.app w fs hr st).1.2 = st ∧ Forall is_call (Serve.app w fs hr st).2.
Proof.
  intros [m Hm]. destruct (app_step w fs hr st); first done; congruence.
Qed.

Lemma serve_cons w fs hr rest st :
  Serve.serve w ((fs, hr) :: rest) st
  = Serve.app w fs hr st :: Serve.serve w rest (Serve.app w fs hr st).1.2.
Proof. reflexivity. Qed.

Lemma serve_cached w reqs st :
  is_Some (st !! "model") →
  Forall (λ out, out.1.2 = st ∧ Forall is_call out.2) (Serve.serve w reqs st).
Proof.
  intros Hm. induction reqs as [|[fs hr] rest IH]; [constructor|].
  rewrite serve_cons.
  destruct (app_step_cached w fs hr st Hm) as [Hst Hcalls].
  constructor; [done|]. by rewrite Hst.
Qed.

Lemma loads_done_app t1 t2 :
  loads_done (t1 ++ t2) = (loads_done t1 + loads_done t2)%nat.
Proof. unfold loads_done. by rewrite filter_app, length_app. Qed.

Lemma loads_done_calls t : Forall is_call t → loads_done t = 0%nat.
Proof.
  unfold loads_done. induction 1 as [|e t He _ IH]; [done|].
  rewrite filter_cons_False; [done|]. intros ->. exact He.
Qed.

Lemma calls_no_store t name : Forall is_call t → EvSetAttr name ∉ t.
Proof.
  intros Hc Hin. rewrite Forall_forall in Hc. exact (Hc _ Hin).
Qed.

Lemma calls_no_open t path : Forall is_call t → EvOpen path ∉ t.
Proof.
  intros Hc Hin. rewrite Forall_forall in Hc. exact (Hc _ Hin).
Qed.

Lemma serve_cached_loads w reqs st :
  is_Some (st !! "model") →
  loads_done (total_trace (Serve.serve w reqs st)) = 0%nat.
Proof.
  intros Hm. pose proof (serve_cached w reqs st Hm) as Hall.
  unfold total_trace.
  induction Hall as [|out run [_ Hc] _ IH]; [done|].
  simpl. by rewrite loads_done_app, (loads_done_calls _ Hc), IH.
Qed.

Lemma serve_loads_once w reqs st :
  (loads_done (total_trace (Serve.serve w reqs st)) ≤ 1)%nat.
Proof.
  revert st. induction reqs as [|[fs hr] rest IH]; intros st.
  { simpl. unfold loads_done. simpl. lia. }
  rewrite serve_cons. unfold total_trace. simpl.
  rewrite loads_done_app. fold (total_trace (Serve.serve w rest
    (Serve.app w fs hr st).1.2)).
  destruct (app_step w fs hr st) as [resp t Hc | resp Hm Hl
                                    | resp model dv t Hm Hl Hc];
    cbn [fst snd].
  - rewrite (loads_done_calls _ Hc). apply IH.
  - change (loads_done [EvOpen MODEL_PATH]) with 0%nat. apply IH.
  - rewrite serve_cached_loads by (by simplify_map_eq).
    assert (loads_done
              (EvOpen MODEL_PATH :: EvSetAttr "model" :: EvSetAttr "dv" :: t)
            = 1%nat) as ->; [|lia].
    change (EvOpen MODEL_PATH :: EvSetAttr "model" :: EvSetAttr "dv" :: t)
      with ([EvOpen MODEL_PATH; EvSetAttr "model"; EvSetAttr "dv"] ++ t).
    by rewrite loads_done_app, (loads_done_calls _ Hc).
Qed.

Lemma serve_no_reload w reqs st i j out_i out_j :
  (i < j)%nat →
  Serve.serve w reqs st !! i = Some out_i →
  Serve.serve w reqs st !! j = Some out_j →
  is_Some (out_i.1.2 !! "model") →
  out_j.1.2 = out_i.1.2 ∧ Forall is_call out_j.2.
Proof.
  revert st i j. induction reqs as [|[fs hr] rest IH]; intros st i j Hij.
  { intros Hi. discriminate Hi. }
  rewrite serve_cons. destruct j as [|j]; [lia|].
  destruct i as [|i]; simpl.
  - intros [= <-] Hj Hm.
    pose proof (serve_cached w rest _ Hm) as Hall.
    rewrite Forall_lookup in Hall. exact (Hall j out_j Hj).
  - apply IH. lia.
Qed.

Lemma serve_first_load w reqs st i fs hr out :
  reqs !! i = Some (fs, hr) →
  Serve.serve w reqs st !! i = Some out →
  EvSetAttr "model" ∈ out.2 →
  is_Some (loadable fs)
  ∧ EvOpen MODEL_PATH ∈ out.2
  ∧ ∀ j fs' hr' out',
      (j < i)%nat →
      reqs !! j = Some (fs', hr') →
      Serve.serve w reqs st !! j = Some out' →
      EvOpen MODEL_PATH ∈ out'.2 →
      loadable fs' = None.
Proof.
  revert st i. induction reqs as [|[fs0 hr0] rest IH]; intros st i.
  { intros Hi. discriminate Hi. }
  rewrite serve_cons. destruct i as [|i]; simpl.
  - intros [= -> ->] [= <-] Hin.
    destruct (app_step w fs hr st) as [resp t Hc | resp Hm Hl
                                      | resp model dv t Hm Hl Hc];
      simpl in *.
    + by apply calls_no_store in Hin.
    + apply list_elem_of_singleton in Hin. discriminate Hin.
    + split_and!; [by rewrite Hl | by left | intros; lia].
  - intros Hi Hout Hin.
    destruct (app_step w fs0 hr0 st) as [resp t Hc | resp Hm Hl
                                        | resp model dv t Hm Hl Hc];
      simpl in *.
    + destruct (IH st i Hi Hout Hin) as (Hload & Hopen & Hbefore).
      split_and!; [done..|].
      intros [|j] fs' hr' out' Hj; simpl.
      * intros [= <- <-] [= <-] Ho. simpl in Ho.
        by apply calls_no_open in Ho.
      * apply Hbefore. lia.
    + destruct (IH st i Hi Hout Hin) as (Hload & Hopen & Hbefore).
      split_and!; [done..|].
      intros [|j] fs' hr' out' Hj; simpl.
      * by intros [= <- <-] _ _.
      * apply Hbefore. lia.
    + exfalso.
      pose proof (serve_cached w rest
                    (<["dv" := dv]> (<["model" := model]> st))
                    ltac:(by simplify_map_eq)) as Hall.
      rewrite Forall_lookup in Hall.
      destruct (Hall i out Hout) as [_ Hcalls].
      by apply calls_no_store in Hin.
Qed.

Lemma serve_lookup w reqs st i fs hr out :
  reqs !! i = Some (fs, hr) →
  Serve.serve w reqs st !! i = Some out →
  ∃ st', out = Serve.app w fs hr st'.
Proof.
  revert st i. induction reqs as [|[fs0 hr0] rest IH]; intros st i.
  { intros Hi. discriminate Hi. }
  rewrite serve_cons. destruct i as [|i]; simpl.
  - intros [= -> ->] [= <-]. eauto.
  - apply IH.
Qed.

(** In one request: the artifact is loaded exactly when [predict.model] is
    stored. *)
Lemma step_load_stores fs hr st out :
  step_kind fs st out →
  loads_artifact ((fs, hr), out) ↔ EvSetAttr "model" ∈ out.2.
Proof.
  unfold loads_artifact.
  intros [resp t Hc | resp Hm Hl | resp model dv t Hm Hl Hc]; cbn [fst snd].
  - split.
    + intros [Ho _]. by apply calls_no_open in Ho.
    + intros Hs. by apply calls_no_store in Hs.
  - split.
    + intros [_ [p Hp]]. congruence.
    + intros Hs. apply list_elem_of_singleton in Hs. discriminate Hs.
  - split.
    + intros _. apply elem_of_cons. right. apply elem_of_cons. by left.
    + intros _. split; [apply elem_of_cons; by left | by rewrite Hl].
Qed.

Lemma step_stored_pair fs st out :
  step_kind fs st out →
  EvSetAttr "model" ∈ out.2 →
  ∃ model dv,
    loadable fs = Some (model, dv)
    ∧ out.1.2 !! "model" = Some model
    ∧ out.1.2 !! "dv" = Some dv.
Proof.
  intros [resp t Hc | resp Hm Hl | resp model dv t Hm Hl Hc]; cbn [fst snd].
  - intros Hs. by apply calls_no_store in Hs.
  - intros Hs. apply list_elem_of_singleton in Hs. discriminate Hs.
  - intros _. exists model, dv. split_and!; [done|by simplify_map_eq..].
Qed.

Lemma serve_load_stores w reqs st i fs hr out :
  reqs !! i = Some (fs, hr) →
  Serve.serve w reqs st !! i = Some out →
  loads_artifact ((fs, hr), out) ↔ EvSetAttr "model" ∈ out.2.
Proof.
  intros Hi Hout.
  destruct (serve_lookup w reqs st i fs hr out Hi Hout) as [st' ->].
  apply (step_load_stores fs hr st'), app_step.
Qed.

Lemma serve_stored_pair w reqs st i fs hr out :
  reqs !! i = Some (fs, hr) →
  Serve.serve w reqs st !! i = Some out →
  EvSetAttr "model" ∈ out.2 →
  ∃ model dv,
    loadable fs = Some (model, dv)
    ∧ out.1.2 !! "model" = Some model
    ∧ out.1.2 !! "dv" = Some dv.
Proof.
  intros Hi Hout.
  destruct (serve_lookup w reqs st i fs hr out Hi Hout) as [st' ->].
  apply (step_stored_pair fs st'), app_step.
Qed.

Lemma artifact_loads_cons fs hr rest out run :
  artifact_loads ((fs, hr) :: rest) (out :: run)
  = ((if decide (loads_artifact ((fs, hr), out)) then 1 else 0)
     + artifact_loads rest run)%nat.
Proof.
  unfold artifact_loads. cbn [zip zip_with].
  rewrite filter_cons. by destruct (decide _).
Qed.

Lemma serve_cached_artifact_loads w reqs st :
  is_Some (st !! "model") →
  artifact_loads reqs (Serve.serve w reqs st) = 0%nat.
Proof.
  intros Hm. induction reqs as [|[fs hr] rest IH]; [done|].
  rewrite serve_cons, artifact_loads_cons.
  destruct (app_step_cached w fs hr st Hm) as [Hst Hcalls].
  rewrite Hst, IH. destruct (decide _) as [[Ho _]|_]; [|done].
  by apply calls_no_open in Ho.
Qed.

Lemma serve_artifact_loads_once w reqs st :
  (artifact_loads reqs (Serve.serve w reqs st) ≤ 1)%nat.
Proof.
  revert st. induction reqs as [|[fs hr] rest IH]; intros st.
  { unfold artifact_loads. simpl. lia. }
  rewrite serve_cons, artifact_loads_cons.
  pose proof (step_load_stores fs hr st _ (app_step w fs hr st)) as Hiff.
  destruct (app_step w fs hr st) as [resp t Hc | resp Hm Hl
                                    | resp model dv t Hm Hl Hc];
    cbn [fst snd] in *.
  - destruct (decide _) as [Hld|_]; [|apply IH].
    apply Hiff in Hld. by apply calls_no_store in Hld.
  - destruct (decide _) as [Hld|_]; [|apply IH].
    apply Hiff, list_elem_of_singleton in Hld. discriminate Hld.
  - rewrite serve_cached_artifact_loads by (by simplify_map_eq).
    destruct (decide _); lia.
Qed.

(** C5, as stated, fails in its middle clause: a load that fails leaves the
    state not loaded, and a later request loads.  With the file missing at
    the first request and present at the second, both requests reach the
    load step and the artifact is stored at the second one. *)
Lemma load_retried_after_failure :
  Serve.serve Werkzeug23
    [ (Missing, post_predict (json_request (record_age 34)));
      (artifact_of (constant_model (7 # 10)) empty_dv,
       post_predict (json_request (record_age 34))) ] ∅
  = [ (Response 500 ErrorPage, ∅, [EvOpen MODEL_PATH]);
      (jsonify (prediction_fields (Finite (7000 # 10000)) 1) 200,
       {[ "model" := constant_model (7 # 10); "dv" := empty_dv ]},
       [ EvOpen MODEL_PATH; EvSetAttr "model"; EvSetAttr "dv";
         EvCall "transform"; EvCall "predict_proba" ]) ].
Proof. vm_compute. reflexivity. Qed.

(** C5, amended.  Over every sequence of requests handled by one process,
    whatever the file is at each of them, the artifact is loaded at most
    once: at most one request opens the file and gets a model and a
    vectorizer from it, and [predict.model] is stored at most once.  A
    request loads the artifact exactly when it stores [predict.model], and
    it then leaves the loaded model and vectorizer in the state; it is the
    first request whose load succeeds: every earlier request that opened
    the file found it missing or corrupt.  With the model in the state,
    at the start or after some request, every later request leaves the
    state as it is and only calls methods, so it neither opens the file nor
    stores an attribute. *)
Theorem artifact_loaded_at_most_once w reqs st :
  (artifact_loads reqs (Serve.serve w reqs st) ≤ 1)%nat
  ∧ (loads_done (total_trace (Serve.serve w reqs st)) ≤ 1)%nat
  ∧ (is_Some (st !! "model") →
     artifact_loads reqs (Serve.serve w reqs st) = 0%nat
     ∧ Forall (λ out, out.1.2 = st ∧ Forall is_call out.2)
         (Serve.serve w reqs st))
  ∧ (∀ i j out_i out_j,
       (i < j)%nat →
       Serve.serve w reqs st !! i = Some out_i →
       Serve.serve w reqs st !! j = Some out_j →
       is_Some (out_i.1.2 !! "model") →
       out_j.1.2 = out_i.1.2 ∧ Forall is_call out_j.2)
  ∧ (∀ i fs hr out,
       reqs !! i = Some (fs, hr) →
       Serve.serve w reqs st !! i = Some out →
       (loads_artifact ((fs, hr), out) ↔ EvSetAttr "model" ∈ out.2)
       ∧ (EvSetAttr "model" ∈ out.2 →
          (∃ model dv,
             loadable fs = Some (model, dv)
             ∧ out.1.2 !! "model" = Some model
             ∧ out.1.2 !! "dv" = Some dv)
          ∧ EvOpen MODEL_PATH ∈ out.2
          ∧ ∀ j fs' hr' out',
              (j < i)%nat →
              reqs !! j = Some (fs', hr') →
              Serve.serve w reqs st !! j = Some out' →
              EvOpen MODEL_PATH ∈ out'.2 →
              loadable fs' = None)).
Proof.
  split_and!.
  - apply serve_artifact_loads_once.
  - apply serve_loads_once.
  - intros Hm. split.
    + by apply serve_cached_artifact_loads.
    + by apply serve_cached.
  - apply serve_no_reload.
  - intros i fs hr out Hi Hout. split.
    + exact (serve_load_stores w reqs st i fs hr out Hi Hout).
    + intros Hin.
      destruct (serve_first_load w reqs st i fs hr out Hi Hout Hin)
        as (_ & Hopen & Hbefore).
      split_and!; [|done..].
      exact (serve_stored_pair w reqs st i fs hr out Hi Hout Hin).
Qed.

(** * Further properties of the service *)

(** ** The guard on the payload *)

Lemma truthy_false_cases data :
  truthy data = false
  ↔ data = JNull ∨ data = JBool false ∨ data = JInt 0
    ∨ (∃ q, data = JFloat (Finite q) ∧ (q == 0)%Q)
    ∨ data = JStr EmptyString ∨ data = JList [] ∨ data = JObj ∅.
Proof.
  destruct data as [|b|z|x|s|l|m]; simpl.
  - split; [auto|done].
  - split.
    + intros ->. auto.
    + intros [H|[H|[H|[(q & H & _)|[H|[H|H]]]]]]; try discriminate H.
      by injection H.
  - rewrite negb_false_iff, Z.eqb_eq. split.
    + intros ->. auto.
    + intros [H|[H|[H|[(q & H & _)|[H|[H|H]]]]]]; try discriminate H.
      by injection H.
  - destruct x as [q| |].
    + rewrite negb_false_iff, Qeq_bool_iff. split.
      * intros Hq. do 3 right. left. eauto.
      * intros [H|[H|[H|[(q' & H & Hq)|[H|[H|H]]]]]]; try discriminate H.
        injection H as ->. exact Hq.
    + split; [done|].
      intros [H|[H|[H|[(q' & H & Hq)|[H|[H|H]]]]]]; discriminate H.
    + split; [done|].
      intros [H|[H|[H|[(q' & H & Hq)|[H|[H|H]]]]]]; discriminate H.
  - rewrite negb_false_iff, String.eqb_eq. split.
    + intros ->. auto 10.
    + intros [H|[H|[H|[(q & H & _)|[H|[H|H]]]]]]; try discriminate H.
      by injection H.
  - rewrite negb_false_iff, Nat.eqb_eq. split.
    + intros Hl. destruct l; [auto 10|discriminate Hl].
    + intros [H|[H|[H|[(q & H & _)|[H|[H|H]]]]]]; try discriminate H.
      by injection H as ->.
  - rewrite negb_false_iff, Nat.eqb_eq, map_size_empty_iff. split.
    + intros ->. auto 10.
    + intros [H|[H|[H|[(q & H & _)|[H|[H|H]]]]]]; try discriminate H.
      by injection H.
Qed.

(** X1.  POST /predict is answered with 400 and the message
    "No input data provided", before anything is loaded, exactly when the
    parsed payload is false in Python; and the payloads that are false are
    null, false, 0, 0.0, the empty string, the empty list and the empty
    object. *)
Theorem no_input_data_iff_falsy w fs r st data :
  get_json w r = Ok data →
  (Serve.app w fs (post_predict r) st
   = (jsonify (error_fields "No input data provided") 400, st, [])
   ↔ truthy data = false)
  ∧ (truthy data = false
     ↔ data = JNull ∨ data = JBool false ∨ data = JInt 0
       ∨ (∃ q, data = JFloat (Finite q) ∧ (q == 0)%Q)
       ∨ data = JStr EmptyString ∨ data = JList [] ∨ data = JObj ∅).
Proof.
  intros Hj. split; [|apply truthy_false_cases].
  split.
  - intros Hout. destruct (truthy data) eqn:Ht; [exfalso|done].
    assert (status (Serve.app w fs (post_predict r) st).1.1 = 400)
      as Hstatus by (by rewrite Hout).
    assert ((Serve.app w fs (post_predict r) st).2 = [])
      as Htrace by (by rewrite Hout).
    clear Hout. predict_cases w fs r st; cbn [fst snd] in *.
    + congruence.
    + congruence.
    + discriminate Htrace.
    + simpl in Hstatus. lia.
    + destruct (score model dv data0); simpl in Hstatus; lia.
  - intros Ht. rewrite app_post_predict. unfold full_dispatch_request.
    by rewrite (predict_falsy w fs r st data Hj Ht).
Qed.

Lemma no_input_data_iff_falsy_witness :
  get_json Werkzeug23 (json_request (JList [])) = Ok (JList [])
  ∧ (Serve.app Werkzeug23 Missing (post_predict (json_request (JList []))) ∅
     = (jsonify (error_fields "No input data provided") 400, ∅, [])
     ↔ truthy (JList []) = false).
Proof.
  split; [reflexivity|].
  exact (proj1 (no_input_data_iff_falsy Werkzeug23 Missing
                  (json_request (JList [])) ∅ (JList []) eq_refl)).
Defined.

(** X2.  POST /predict is answered with status 200, 400, 415 or 500.  A
    client error (400 or 415) is decided before the load step: the state is
    left as it was and nothing is opened, stored or called.  A 200 answer
    means that the model and the vectorizer are stored when the request
    ends and that both were called. *)
Theorem client_errors_precede_the_load w fs r st :
  (status (Serve.app w fs (post_predict r) st).1.1 = 200
   ∨ status (Serve.app w fs (post_predict r) st).1.1 = 400
   ∨ status (Serve.app w fs (post_predict r) st).1.1 = 415
   ∨ status (Serve.app w fs (post_predict r) st).1.1 = 500)
  ∧ (400 ≤ status (Serve.app w fs (post_predict r) st).1.1 < 500 →
     (Serve.app w fs (post_predict r) st).1.2 = st
     ∧ (Serve.app w fs (post_predict r) st).2 = [])
  ∧ (status (Serve.app w fs (post_predict r) st).1.1 = 200 →
     is_Some ((Serve.app w fs (post_predict r) st).1.2 !! "model")
     ∧ is_Some ((Serve.app w fs (post_predict r) st).1.2 !! "dv")
     ∧ EvCall "transform" ∈ (Serve.app w fs (post_predict r) st).2
     ∧ EvCall "predict_proba" ∈ (Serve.app w fs (post_predict r) st).2).
Proof.
  predict_cases w fs r st; cbn [fst snd].
  - destruct (get_json_raise w r e H) as [-> | [-> | ->]]; simpl;
      split_and!; auto; intros; lia.
  - simpl. split_and!; auto; intros; lia.
  - rewrite load_error_http. simpl. split_and!; auto; intros; lia.
  - simpl. split_and!; auto; intros; lia.
  - destruct (after_load_cached st fs model dv H1) as [Hm Hdv].
    unfold score_trace, score.
    destruct (transform dv [data]) as [X|e]; simpl.
    2: { split_and!; auto; intros; lia. }
    destruct (predict_proba model X) as [P|e]; simpl.
    2: { split_and!; auto; intros; lia. }
    destruct (P !! 0%nat ≫= (.!! 1%nat)); simpl.
    2: { split_and!; auto; intros; lia. }
    split_and!; auto; try (intros; lia).
    intros _. rewrite Hm, Hdv. split_and!; eauto.
    + apply elem_of_app. right. apply elem_of_cons. by left.
    + apply elem_of_app. right. apply elem_of_cons. right.
      apply elem_of_cons. by left.
Qed.

(** ** The cache *)

Lemma serve_lookup_cons w fs hr rest st i :
  Serve.serve w ((fs, hr) :: rest) st !! S i
  = Serve.serve w rest (Serve.app w fs hr st).1.2 !! i.
Proof. reflexivity. Qed.

(** X3.  In a process that starts with nothing stored, the attributes of
    [predict] after any request are either still none, or exactly the two
    of them, [model] and [dv], both taken from the file as it was at one
    and the same earlier or current request.  A state with [model] and
    without [dv] is never reached. *)
Theorem cache_is_empty_or_complete w reqs i out :
  Serve.serve w reqs ∅ !! i = Some out →
  out.1.2 = ∅
  ∨ ∃ j fs hr model dv,
      (j ≤ i)%nat
      ∧ reqs !! j = Some (fs, hr)
      ∧ loadable fs = Some (model, dv)
      ∧ out.1.2 = <["dv" := dv]> (<["model" := model]> ∅).
Proof.
  revert i. induction reqs as [|[fs hr] rest IH]; intros i.
  { intros Hi. discriminate Hi. }
  destruct i as [|i].
  - rewrite serve_cons. intros [= <-].
    destruct (app_step w fs hr ∅) as [resp t Hc | resp Hm Hl
                                     | resp model dv t Hm Hl Hc];
      cbn [fst snd]; auto.
    right. exists 0%nat, fs, hr, model, dv. split_and!; auto.
  - rewrite serve_lookup_cons.
    destruct (app_step w fs hr ∅) as [resp t Hc | resp Hm Hl
                                     | resp model dv t Hm Hl Hc];
      cbn [fst snd].
    + intros Hi. destruct (IH i Hi) as [Hempty|(j & f & h & m & d & H)].
      * by left.
      * right. exists (S j), f, h, m, d.
        destruct H as (Hj & Hreq & Hload & Hst). split_and!; auto. lia.
    + intros Hi. destruct (IH i Hi) as [Hempty|(j & f & h & m & d & H)].
      * by left.
      * right. exists (S j), f, h, m, d.
        destruct H as (Hj & Hreq & Hload & Hst). split_and!; auto. lia.
    + intros Hi.
      pose proof (serve_cached w rest
                    (<["dv" := dv]> (<["model" := model]> ∅))
                    ltac:(by simplify_map_eq)) as Hall.
      rewrite Forall_lookup in Hall. destruct (Hall i out Hi) as [Hst _].
      right. exists 0%nat, fs, hr, model, dv. split_and!; auto. lia.
Qed.

Lemma cache_is_empty_or_complete_witness :
  Serve.serve Werkzeug23
    [ (Missing, post_predict (json_request (record_age 34)));
      (artifact_of (constant_model (7 # 10)) empty_dv,
       post_predict (json_request (record_age 34))) ] ∅ !! 1%nat
  = Some (jsonify (prediction_fields (Finite (7000 # 10000)) 1) 200,
          <["dv" := empty_dv]> (<["model" := constant_model (7 # 10)]> (∅ : attrs)),
          [ EvOpen MODEL_PATH; EvSetAttr "model"; EvSetAttr "dv";
            EvCall "transform"; EvCall "predict_proba" ])
  ∧ (<["dv" := empty_dv]> (<["model" := constant_model (7 # 10)]> (∅ : attrs)) = ∅
     ∨ ∃ j fs hr model dv,
         (j ≤ 1)%nat
         ∧ [ (Missing, post_predict (json_request (record_age 34)));
             (artifact_of (constant_model (7 # 10)) empty_dv,
              post_predict (json_request (record_age 34))) ] !! j
           = Some (fs, hr)
         ∧ loadable fs = Some (model, dv)
         ∧ <["dv" := empty_dv]> (<["model" := constant_model (7 # 10)]> (∅ : attrs))
           = <["dv" := dv]> (<["model" := model]> (∅ : attrs))).
Proof.
  assert (Serve.serve Werkzeug23
    [ (Missing, post_predict (json_request (record_age 34)));
      (artifact_of (constant_model (7 # 10)) empty_dv,
       post_predict (json_request (record_age 34))) ] ∅ !! 1%nat
  = Some (jsonify (prediction_fields (Finite (7000 # 10000)) 1) 200,
          <["dv" := empty_dv]> (<["model" := constant_model (7 # 10)]> (∅ : attrs)),
          [ EvOpen MODEL_PATH; EvSetAttr "model"; EvSetAttr "dv";
            EvCall "transform"; EvCall "predict_proba" ]))
    as Hrun by (vm_compute; reflexivity).
  split; [exact Hrun|].
  exact (cache_is_empty_or_complete Werkzeug23 _ 1%nat _ Hrun).
Defined.

(** ** Loading the artifact *)

(** X4.  [load_artifact] returns a pair exactly when the file unpickles to
    a dictionary that has both keys [model] and [dict_vectorizer], and the
    pair is made of these two entries.  A dictionary without [model] raises
    the key error of [model], also when [dict_vectorizer] is missing too; a
    dictionary with [model] and without [dict_vectorizer] raises the key
    error of [dict_vectorizer].  In every case the file is opened once,
    nothing is stored or called, and [load_artifacts] of predict.py does the
    same. *)
Theorem load_artifact_needs_both_keys fs st :
  (∀ model dv,
     Serve.load_artifact fs st = (Ok (model, dv), st, [EvOpen MODEL_PATH])
     ↔ ∃ artifact,
         fs = Pickled artifact
         ∧ artifact !! "model" = Some model
         ∧ artifact !! "dict_vectorizer" = Some dv)
  ∧ (∀ artifact,
       fs = Pickled artifact →
       artifact !! "model" = None →
       Serve.load_artifact fs st
       = (Raise (Exception "'model'"), st, [EvOpen MODEL_PATH]))
  ∧ (∀ artifact,
       fs = Pickled artifact →
       is_Some (artifact !! "model") →
       artifact !! "dict_vectorizer" = None →
       Serve.load_artifact fs st
       = (Raise (Exception "'dict_vectorizer'"), st, [EvOpen MODEL_PATH]))
  ∧ (∃ res, Serve.load_artifact fs st = (res, st, [EvOpen MODEL_PATH]))
  ∧ Predict.load_artifacts fs st = Serve.load_artifact fs st.
Proof.
  change (Predict.load_artifacts fs st) with (Serve.load_artifact fs st).
  rewrite load_artifact_run. split_and!.
  - intros model dv. split.
    + destruct fs as [| msg | artifact]; simpl.
      { intros [=]. }
      { intros [=]. }
      destruct (artifact !! "model") as [m|] eqn:Hm; simpl;
        destruct (artifact !! "dict_vectorizer") as [d|] eqn:Hd; simpl;
        intros [=]; subst; eauto.
    + intros (artifact & -> & Hm & Hd). simpl. by rewrite Hm, Hd.
  - intros artifact -> Hm. simpl. by rewrite Hm.
  - intros artifact -> [m Hm] Hd. simpl. by rewrite Hm, Hd.
  - eauto.
  - done.
Qed.

Lemma loadable_same_entries a1 a2 :
  a1 !! "model" = a2 !! "model" →
  a1 !! "dict_vectorizer" = a2 !! "dict_vectorizer" →
  loadable (Pickled a1) = loadable (Pickled a2)
  ∧ load_error (Pickled a1) = load_error (Pickled a2).
Proof. intros Hm Hd. simpl. by rewrite Hm, Hd. Qed.

Lemma predict_same_load w fs1 fs2 r st :
  loadable fs1 = loadable fs2 →
  load_error fs1 = load_error fs2 →
  Serve.predict w fs1 r st = Serve.predict w fs2 r st.
Proof.
  intros Hl He.
  destruct (get_json w r) as [data|e] eqn:Hj.
  2: { by rewrite !(predict_abort w _ r st e Hj). }
  destruct (truthy data) eqn:Ht.
  2: { by rewrite !(predict_falsy w _ r st data Hj Ht). }
  destruct (in_use st fs1) as [[model dv]|] eqn:Hu.
  - assert (in_use st fs2 = Some (model, dv)) as Hu2.
    { unfold in_use in *. destruct (st !! "model"); by rewrite <-?Hl. }
    rewrite (predict_scored w fs1 r st data model dv Hj Ht Hu),
      (predict_scored w fs2 r st data model dv Hj Ht Hu2).
    unfold after_load, load_trace. by rewrite Hl.
  - unfold in_use in Hu. destruct (st !! "model") as [model|] eqn:Hm.
    + destruct (st !! "dv") as [dv|] eqn:Hdv; [discriminate Hu|].
      by rewrite !(predict_no_dv w _ r st data model Hj Ht Hm Hdv).
    + rewrite (predict_load_fails w fs1 r st data Hj Ht Hm Hu),
        (predict_load_fails w fs2 r st data Hj Ht Hm) by (by rewrite <-Hl).
      by rewrite He.
Qed.

(** X5.  Nothing in the service or in the standalone function depends on
    the other entries of the artifact (parameters, metrics, seed): two
    pickled dictionaries with the same [model] and [dict_vectorizer]
    entries, present or missing, give the same response, state and trace
    for every request, and the same result of the standalone function. *)
Theorem other_artifact_entries_are_ignored a1 a2 :
  a1 !! "model" = a2 !! "model" →
  a1 !! "dict_vectorizer" = a2 !! "dict_vectorizer" →
  (∀ w hr st,
     Serve.app w (Pickled a1) hr st = Serve.app w (Pickled a2) hr st)
  ∧ (∀ features st,
       Predict.predict (Pickled a1) features st
       = Predict.predict (Pickled a2) features st).
Proof.
  intros Hm Hd.
  destruct (loadable_same_entries a1 a2 Hm Hd) as [Hl He]. split.
  - intros w hr st. unfold Serve.app.
    destruct (String.eqb (Serve.path hr) "/"),
      (String.eqb (Serve.path hr) "/health"),
      (String.eqb (Serve.path hr) "/predict"), (Serve.method hr);
      try reflexivity;
      unfold full_dispatch_request;
      by rewrite (predict_same_load w (Pickled a1) (Pickled a2) _ st Hl He).
  - intros features st. by rewrite !standalone_run, Hl, He.
Qed.

Lemma other_artifact_entries_are_ignored_witness :
  ({[ "model" := constant_model (7 # 10); "dict_vectorizer" := empty_dv;
      "random_state" := empty_dv ]} : gmap string pyobj) !! "model"
  = ({[ "model" := constant_model (7 # 10);
        "dict_vectorizer" := empty_dv ]} : gmap string pyobj) !! "model"
  ∧ ∀ features st,
      Predict.predict
        (Pickled {[ "model" := constant_model (7 # 10);
                    "dict_vectorizer" := empty_dv;
                    "random_state" := empty_dv ]}) features st
      = Predict.predict
          (Pickled {[ "model" := constant_model (7 # 10);
                      "dict_vectorizer" := empty_dv ]}) features st.
Proof.
  assert (({[ "model" := constant_model (7 # 10);
              "dict_vectorizer" := empty_dv;
              "random_state" := empty_dv ]} : gmap string pyobj) !! "model"
          = ({[ "model" := constant_model (7 # 10);
                "dict_vectorizer" := empty_dv ]} : gmap string pyobj)
              !! "model") as Hm by (vm_compute; reflexivity).
  assert (({[ "model" := constant_model (7 # 10);
              "dict_vectorizer" := empty_dv;
              "random_state" := empty_dv ]} : gmap string pyobj)
            !! "dict_vectorizer"
          = ({[ "model" := constant_model (7 # 10);
                "dict_vectorizer" := empty_dv ]} : gmap string pyobj)
              !! "dict_vectorizer") as Hd by (vm_compute; reflexivity).
  split; [exact Hm|].
  exact (proj2 (other_artifact_entries_are_ignored _ _ Hm Hd)).
Defined.

(** ** The standalone function *)

(** X6.  The standalone function has no guard on its argument: on a record
    that is false in Python (the empty record, for one), which the HTTP
    handler answers with 400 before loading, it loads the artifact and
    scores the record like any other. *)
Theorem standalone_has_no_payload_guard w fs r st st0 data model dv :
  get_json w r = Ok data →
  truthy data = false →
  loadable fs = Some (model, dv) →
  Serve.app w fs (post_predict r) st
  = (jsonify (error_fields "No input data provided") 400, st, [])
  ∧ Predict.predict fs data st0
    = (match score model dv data with
       | Ok p => Ok (prediction_fields p (int_of_bool (ge_half p)))
       | Raise e => Raise e
       end, st0, EvOpen MODEL_PATH :: score_trace dv data).
Proof.
  intros Hj Ht Hl. split.
  - rewrite app_post_predict. unfold full_dispatch_request.
    by rewrite (predict_falsy w fs r st data Hj Ht).
  - by rewrite standalone_run, Hl.
Qed.

Lemma standalone_has_no_payload_guard_witness :
  truthy (JObj ∅) = false
  ∧ Predict.predict (artifact_of (constant_model (7 # 10)) empty_dv)
      (JObj ∅) ∅
    = (match score (constant_model (7 # 10)) empty_dv (JObj ∅) with
       | Ok p => Ok (prediction_fields p (int_of_bool (ge_half p)))
       | Raise e => Raise e
       end, ∅, EvOpen MODEL_PATH :: score_trace empty_dv (JObj ∅)).
Proof.
  split; [reflexivity|].
  exact (proj2 (standalone_has_no_payload_guard Werkzeug23
                  (artifact_of (constant_model (7 # 10)) empty_dv)
                  (json_request (JObj ∅)) ∅ ∅ (JObj ∅)
                  (constant_model (7 # 10)) empty_dv
                  eq_refl eq_refl eq_refl)).
Defined.

(** X7.  The standalone function keeps nothing between calls and catches
    nothing: every call opens the artifact file first and leaves the state
    as it was, storing no attribute; a load that fails raises the load
    error after the file was opened, and an exception raised while scoring
    leaves the function unchanged. *)
Theorem standalone_reloads_and_raises fs features st :
  (Predict.predict fs features st).1.2 = st
  ∧ (∃ t, (Predict.predict fs features st).2 = EvOpen MODEL_PATH :: t
          ∧ Forall is_call t)
  ∧ (loadable fs = None →
     Predict.predict fs features st
     = (Raise (load_error fs), st, [EvOpen MODEL_PATH]))
  ∧ (∀ model dv e,
       loadable fs = Some (model, dv) →
       score model dv features = Raise e →
       (Predict.predict fs features st).1.1 = Raise e).
Proof.
  rewrite standalone_run.
  destruct (loadable fs) as [[model dv]|]; cbn [fst snd]; split_and!.
  - done.
  - eauto using score_trace_calls.
  - intros [=].
  - intros m d e [= <- <-] ->. done.
  - done.
  - exists []. by split.
  - done.
  - intros m d e [=].
Qed.

(** ** The routes *)

(** X8.  Only POST /predict does anything to the process: every other
    request leaves the state as it was, opens, stores and calls nothing,
    and gets a response that depends on the request alone.  GET / is
    answered with status 200, the status OK and the name of the service. *)
Theorem only_predict_has_effects w fs hr st :
  ¬ (Serve.method hr = Serve.POST ∧ Serve.path hr = "/predict") →
  (Serve.app w fs hr st).1.2 = st
  ∧ (Serve.app w fs hr st).2 = []
  ∧ (∀ w' fs' st',
       (Serve.app w' fs' hr st').1.1 = (Serve.app w fs hr st).1.1)
  ∧ (Serve.method hr = Serve.GET →
     Serve.path hr = "/" →
     (Serve.app w fs hr st).1.1
     = jsonify {[ "status" := JStr "OK";
                  "service" :=
                    JStr "Global Mental Health & Lifestyle Predictor" ]}
               200).
Proof.
  intros Hnot. destruct hr as [m p payload]. unfold Serve.app.
  cbn [Serve.method Serve.path Serve.payload] in *.
  destruct (String.eqb_spec p "/") as [->|Hroot].
  { destruct m; split_and!; try reflexivity; intros [=]. }
  destruct (String.eqb_spec p "/health") as [->|Hhealth].
  { destruct m; split_and!; try reflexivity; try done; intros _ [=]. }
  destruct (String.eqb_spec p "/predict") as [->|Hpredict].
  { destruct m; [|by destruct Hnot].
    split_and!; try reflexivity. intros _ [=]. }
  split_and!; try reflexivity. intros _ ->. done.
Qed.

Lemma only_predict_has_effects_witness :
  ¬ (Serve.method (Serve.HttpRequest Serve.GET "/predict"
                     (json_request (record_age 34))) = Serve.POST
     ∧ Serve.path (Serve.HttpRequest Serve.GET "/predict"
                     (json_request (record_age 34))) = "/predict")
  ∧ (Serve.app Werkzeug23 Missing
       (Serve.HttpRequest Serve.GET "/predict"
          (json_request (record_age 34))) ∅).2 = [].
Proof.
  assert (¬ (Serve.method (Serve.HttpRequest Serve.GET "/predict"
                             (json_request (record_age 34))) = Serve.POST
             ∧ Serve.path (Serve.HttpRequest Serve.GET "/predict"
                             (json_request (record_age 34))) = "/predict"))
    as Hnot by (intros [Hm _]; discriminate Hm).
  split; [exact Hnot|].
  exact (proj1 (proj2 (only_predict_has_effects Werkzeug23 Missing
                         (Serve.HttpRequest Serve.GET "/predict"
                            (json_request (record_age 34))) ∅ Hnot))).
Defined.

(** ** The rounded probability *)

Lemma floor_monotone n1 d1 n2 d2 :
  n1 * Z.pos d2 ≤ n2 * Z.pos d1 →
  n1 / Z.pos d1 ≤ n2 / Z.pos d2.
Proof.
  intros Hle.
  pose proof (Z.div_mod n1 (Z.pos d1) ltac:(lia)) as Hdiv1.
  pose proof (Z.mod_pos_bound n1 (Z.pos d1) ltac:(lia)) as Hmod1.
  pose proof (Z.div_mod n2 (Z.pos d2) ltac:(lia)) as Hdiv2.
  pose proof (Z.mod_pos_bound n2 (Z.pos d2) ltac:(lia)) as Hmod2.
  destruct (Z_le_gt_dec (n1 / Z.pos d1) (n2 / Z.pos d2)) as [|Hgt]; [done|].
  exfalso.
  assert ((n2 / Z.pos d2 + 1) * Z.pos d1 ≤ n1) as H1 by nia.
  assert (n2 < (n2 / Z.pos d2 + 1) * Z.pos d2) as H2 by nia.
  assert ((n2 / Z.pos d2 + 1) * Z.pos d1 * Z.pos d2 ≤ n1 * Z.pos d2) as H3
    by (apply Z.mul_le_mono_nonneg_r; lia).
  assert (n2 * Z.pos d1 < (n2 / Z.pos d2 + 1) * Z.pos d2 * Z.pos d1) as H4
    by (apply Z.mul_lt_mono_pos_r; lia).
  lia.
Qed.

Lemma round_half_even_monotone n1 d1 n2 d2 :
  n1 * Z.pos d2 ≤ n2 * Z.pos d1 →
  round_half_even (n1 # d1) ≤ round_half_even (n2 # d2).
Proof.
  intros Hle. pose proof (floor_monotone n1 d1 n2 d2 Hle) as Hfloor.
  pose proof (round_half_even_floor n1 d1) as [_ Hup1].
  pose proof (round_half_even_floor n2 d2) as [Hlow2 _].
  destruct (Z.eq_dec (n1 / Z.pos d1) (n2 / Z.pos d2)) as [Heq|Hne]; [|lia].
  clear Hup1 Hlow2 Hfloor. unfold round_half_even. simpl.
  pose proof (Z.div_mod n1 (Z.pos d1) ltac:(lia)) as Hdiv1.
  pose proof (Z.mod_pos_bound n1 (Z.pos d1) ltac:(lia)) as Hmod1.
  pose proof (Z.div_mod n2 (Z.pos d2) ltac:(lia)) as Hdiv2.
  pose proof (Z.mod_pos_bound n2 (Z.pos d2) ltac:(lia)) as Hmod2.
  rewrite <-Heq in *.
  set (f := n1 / Z.pos d1) in *.
  set (r1 := n1 mod Z.pos d1) in *. set (r2 := n2 mod Z.pos d2) in *.
  assert (r1 * Z.pos d2 ≤ r2 * Z.pos d1) as Hr by nia.
  destruct (Z.compare_spec (2 * r1) (Z.pos d1)) as [He1|Hlt1|Hgt1];
    destruct (Z.compare_spec (2 * r2) (Z.pos d2)) as [He2|Hlt2|Hgt2];
    destruct (Z.even f); try lia; exfalso; nia.
Qed.

Lemma round4_monotone q1 q2 :
  (q1 <= q2)%Q → (round4 q1 <= round4 q2)%Q.
Proof.
  destruct q1 as [n1 d1], q2 as [n2 d2]. unfold Qle, round4. simpl.
  intros Hle.
  pose proof (round_half_even_monotone (n1 * 10000) (d1 * 1)
                (n2 * 10000) (d2 * 1) ltac:(nia)) as Hm.
  unfold Qmult. simpl. lia.
Qed.

Lemma round4_fixed k : round4 (k # 10000) = k # 10000.
Proof.
  unfold round4, Qmult, round_half_even. simpl.
  rewrite Z.div_mul, Z.mod_mul by lia. reflexivity.
Qed.

(** X9.  When the model scores a record with a finite probability [q], the
    probability in the 200 response is a decimal with four places, [k]
    ten-thousandths, that lies within 0.00005 of [q]; and a score that
    already is such a decimal is returned as it is. *)
Theorem returned_probability_is_nearest_decimal w fs r st data model dv q :
  get_json w r = Ok data →
  truthy data = true →
  in_use st fs = Some (model, dv) →
  score model dv data = Ok (Finite q) →
  (∃ k,
     (Serve.app w fs (post_predict r) st).1.1
     = jsonify (prediction_fields (Finite (k # 10000))
                  (int_of_bool (ge_half (Finite q)))) 200
     ∧ ((k # 10000) - q <= 1 # 20000)%Q
     ∧ (q - (k # 10000) <= 1 # 20000)%Q)
  ∧ (∀ k, q = k # 10000 →
       (Serve.app w fs (post_predict r) st).1.1
       = jsonify (prediction_fields (Finite q)
                    (int_of_bool (ge_half (Finite q)))) 200).
Proof.
  intros Hj Ht Hu Hs.
  rewrite app_post_predict. unfold full_dispatch_request.
  rewrite (predict_scored w fs r st data model dv Hj Ht Hu), Hs.
  cbn [fst snd py_round4]. split.
  - exists (round_half_even (q * (10000 # 1))).
    split; [reflexivity|]. apply (round4_nearest q).
  - intros k ->. by rewrite round4_fixed.
Qed.

Lemma returned_probability_is_nearest_decimal_witness :
  score (constant_model (123456 # 1000000)) empty_dv (record_age 34)
  = Ok (Finite (123456 # 1000000))
  ∧ ∃ k,
      (Serve.app Werkzeug23
         (artifact_of (constant_model (123456 # 1000000)) empty_dv)
         (post_predict (json_request (record_age 34))) ∅).1.1
      = jsonify (prediction_fields (Finite (k # 10000))
                   (int_of_bool (ge_half (Finite (123456 # 1000000))))) 200
      ∧ ((k # 10000) - (123456 # 1000000) <= 1 # 20000)%Q
      ∧ ((123456 # 1000000) - (k # 10000) <= 1 # 20000)%Q.
Proof.
  split; [reflexivity|].
  exact (proj1 (returned_probability_is_nearest_decimal Werkzeug23
                  (artifact_of (constant_model (123456 # 1000000)) empty_dv)
                  (json_request (record_age 34)) ∅ (record_age 34)
                  (constant_model (123456 # 1000000)) empty_dv
                  (123456 # 1000000) eq_refl eq_refl eq_refl eq_refl)).
Defined.

Lemma ge_half_monotone q1 q2 :
  (q1 <= q2)%Q →
  int_of_bool (ge_half (Finite q1)) ≤ int_of_bool (ge_half (Finite q2)).
Proof.
  intros Hle. simpl.
  destruct (Qle_bool (1 # 2) q1) eqn:H1; [|destruct (Qle_bool _ q2); simpl; lia].
  apply Qle_bool_iff in H1.
  assert (Qle_bool (1 # 2) q2 = true) as ->; [|done].
  apply Qle_bool_iff. by apply Qle_trans with q1.
Qed.

(** X10.  The response keeps the order of the model's scores: if the same
    model and vectorizer score one record with [q1] and another with [q2],
    and [q1] is at most [q2], then neither the probability nor the
    prediction returned for the first record is greater than the one
    returned for the second. *)
Theorem response_is_monotone_in_the_score
    w fs1 fs2 r1 r2 st1 st2 data1 data2 model dv q1 q2 :
  get_json w r1 = Ok data1 → truthy data1 = true →
  get_json w r2 = Ok data2 → truthy data2 = true →
  in_use st1 fs1 = Some (model, dv) →
  in_use st2 fs2 = Some (model, dv) →
  score model dv data1 = Ok (Finite q1) →
  score model dv data2 = Ok (Finite q2) →
  (q1 <= q2)%Q →
  ∃ p1 p2 c1 c2,
    (Serve.app w fs1 (post_predict r1) st1).1.1
    = jsonify (prediction_fields (Finite p1) c1) 200
    ∧ (Serve.app w fs2 (post_predict r2) st2).1.1
      = jsonify (prediction_fields (Finite p2) c2) 200
    ∧ (p1 <= p2)%Q
    ∧ c1 ≤ c2.
Proof.
  intros Hj1 Ht1 Hj2 Ht2 Hu1 Hu2 Hs1 Hs2 Hle.
  rewrite !app_post_predict. unfold full_dispatch_request.
  rewrite (predict_scored w fs1 r1 st1 data1 model dv Hj1 Ht1 Hu1), Hs1.
  rewrite (predict_scored w fs2 r2 st2 data2 model dv Hj2 Ht2 Hu2), Hs2.
  cbn [fst snd py_round4].
  exists (round4 q1), (round4 q2), (int_of_bool (ge_half (Finite q1))),
    (int_of_bool (ge_half (Finite q2))).
  split_and!; [done|done|by apply round4_monotone|by apply ge_half_monotone].
Qed.

Lemma response_is_monotone_in_the_score_witness :
  score percent_model age_dv (record_age 34) = Ok (Finite (34 # 100))
  ∧ score percent_model age_dv (record_age 70) = Ok (Finite (70 # 100))
  ∧ (34 # 100 <= 70 # 100)%Q
  ∧ ∃ p1 p2 c1 c2,
      (Serve.app Werkzeug23 (artifact_of percent_model age_dv)
         (post_predict (json_request (record_age 34))) ∅).1.1
      = jsonify (prediction_fields (Finite p1) c1) 200
      ∧ (Serve.app Werkzeug23 (artifact_of percent_model age_dv)
           (post_predict (json_request (record_age 70))) ∅).1.1
        = jsonify (prediction_fields (Finite p2) c2) 200
      ∧ (p1 <= p2)%Q
      ∧ c1 ≤ c2.
Proof.
  assert (34 # 100 <= 70 # 100)%Q as Hle by (unfold Qle; simpl; lia).
  split_and!; [reflexivity|reflexivity|exact Hle|].
  exact (response_is_monotone_in_the_score Werkzeug23
           (artifact_of percent_model age_dv)
           (artifact_of percent_model age_dv)
           (json_request (record_age 34)) (json_request (record_age 70))
           ∅ ∅ (record_age 34) (record_age 70) percent_model age_dv
           (34 # 100) (70 # 100)
           eq_refl eq_refl eq_refl eq_refl eq_refl eq_refl eq_refl eq_refl
           Hle).
Defined.

(** ** Scores that are not probabilities *)

(** X11.  A score that is not a finite number is not rejected: the handler
    answers 200 with the score itself as probability, and the prediction
    is 1 for plus infinity and 0 for NaN and for minus infinity. *)
Theorem non_finite_score_is_answered w fs r st data model dv x :
  get_json w r = Ok data →
  truthy data = true →
  in_use st fs = Some (model, dv) →
  score model dv data = Ok x →
  (∀ q, x ≠ Finite q) →
  (Serve.app w fs (post_predict r) st).1.1
  = jsonify (prediction_fields x
               (match x with Inf false => 1 | _ => 0 end)) 200.
Proof.
  intros Hj Ht Hu Hs Hnf.
  rewrite app_post_predict. unfold full_dispatch_request.
  rewrite (predict_scored w fs r st data model dv Hj Ht Hu), Hs.
  cbn [fst snd].
  destruct x as [q|[]|]; [by destruct (Hnf q)|done..].
Qed.

Lemma non_finite_score_is_answered_witness :
  score (fixed_model NaN NaN) empty_dv (record_age 34) = Ok NaN
  ∧ (Serve.app Werkzeug23 (artifact_of (fixed_model NaN NaN) empty_dv)
       (post_predict (json_request (record_age 34))) ∅).1.1
    = jsonify (prediction_fields NaN 0) 200.
Proof.
  split; [reflexivity|].
  exact (non_finite_score_is_answered Werkzeug23
           (artifact_of (fixed_model NaN NaN) empty_dv)
           (json_request (record_age 34)) ∅ (record_age 34)
           (fixed_model NaN NaN) empty_dv NaN
           eq_refl eq_refl eq_refl eq_refl
           (λ q (H : NaN = Finite q), eq_ind NaN
              (λ y, match y with NaN => True | _ => False end) I _ H)).
Defined.

(** X12.  When the matrix returned by [predict_proba] has no first row, or
    a first row with fewer than two entries (a classifier that knows a
    single class), the index [[0, 1]] is out of bounds: the handler
    answers 500 with a JSON error after both methods were called and keeps
    the artifact it loaded; the standalone function raises. *)
Theorem missing_positive_column_is_server_error
    w fs r st data model dv X P :
  get_json w r = Ok data →
  truthy data = true →
  in_use st fs = Some (model, dv) →
  transform dv [data] = Ok X →
  predict_proba model X = Ok P →
  P !! 0%nat ≫= (.!! 1%nat) = None →
  (∃ msg,
     Serve.app w fs (post_predict r) st
     = (jsonify (error_fields msg) 500,
        after_load st fs,
        load_trace st fs ++ [EvCall "transform"; EvCall "predict_proba"]))
  ∧ (∀ fs' st0,
       loadable fs' = Some (model, dv) →
       ∃ e, (Predict.predict fs' data st0).1.1 = Raise e).
Proof.
  intros Hj Ht Hu HX HP Hidx.
  assert (score model dv data = Raise (Exception "index out of bounds"))
    as Hs by (unfold score; by rewrite HX, HP, Hidx).
  split.
  - eexists. rewrite app_post_predict. unfold full_dispatch_request.
    rewrite (predict_scored w fs r st data model dv Hj Ht Hu), Hs.
    unfold score_trace. rewrite HX. reflexivity.
  - intros fs' st0 Hl. rewrite standalone_run, Hl, Hs. eauto.
Qed.

Lemma missing_positive_column_is_server_error_witness :
  predict_proba one_class_model [[]] = Ok [[Finite 1]]
  ∧ ∃ msg,
      Serve.app Werkzeug23 (artifact_of one_class_model empty_dv)
        (post_predict (json_request (record_age 34))) ∅
      = (jsonify (error_fields msg) 500,
         after_load ∅ (artifact_of one_class_model empty_dv),
         load_trace ∅ (artifact_of one_class_model empty_dv)
           ++ [EvCall "transform"; EvCall "predict_proba"]).
Proof.
  split; [reflexivity|].
  exact (proj1 (missing_positive_column_is_server_error Werkzeug23
                  (artifact_of one_class_model empty_dv)
                  (json_request (record_age 34)) ∅ (record_age 34)
                  one_class_model empty_dv [[]] [[Finite 1]]
                  eq_refl eq_refl eq_refl eq_refl eq_refl eq_refl)).
Defined.

(** ** From training to serving *)

Lemma train_artifact_loadable best_lr dv params val_metrics test_metrics seed :
  loadable
    (Pickled (Train.artifact best_lr dv params val_metrics test_metrics seed))
  = Some (best_lr, dv).
Proof.
  unfold loadable, Train.artifact.
  rewrite lookup_insert_eq. simpl.
  rewrite lookup_insert_ne by (intros [=]).
  rewrite lookup_insert_eq. reflexivity.
Qed.

(** X13.  The dictionary that training pickles has the two keys the loaders
    read.  With that pickle as the model file, a fresh service scores its
    first request that has a payload with exactly the classifier and the
    vectorizer that training stored, and keeps them; the standalone
    function does the same, whatever the other four entries are. *)
Theorem trained_artifact_is_served
    w r data best_lr dv params val_metrics test_metrics seed :
  get_json w r = Ok data →
  truthy data = true →
  Serve.app w
    (Pickled (Train.artifact best_lr dv params val_metrics test_metrics seed))
    (post_predict r) ∅
  = (match score best_lr dv data with
     | Ok p =>
         jsonify (prediction_fields (py_round4 p) (int_of_bool (ge_half p)))
                 200
     | Raise e => jsonify (error_fields (exn_str e)) 500
     end,
     <["dv" := dv]> (<["model" := best_lr]> ∅),
     [EvOpen MODEL_PATH; EvSetAttr "model"; EvSetAttr "dv"]
       ++ score_trace dv data)
  ∧ ∀ st,
      Predict.predict
        (Pickled
           (Train.artifact best_lr dv params val_metrics test_metrics seed))
        data st
      = (match score best_lr dv data with
         | Ok p => Ok (prediction_fields p (int_of_bool (ge_half p)))
         | Raise e => Raise e
         end, st, EvOpen MODEL_PATH :: score_trace dv data).
Proof.
  intros Hj Ht.
  pose proof (train_artifact_loadable best_lr dv params val_metrics
                test_metrics seed) as Hl.
  split.
  - rewrite app_post_predict. unfold full_dispatch_request.
    rewrite (predict_scored w _ r ∅ data best_lr dv Hj Ht)
      by (unfold in_use; by rewrite lookup_empty).
    unfold after_load, load_trace. by rewrite lookup_empty, Hl.
  - intros st. by rewrite standalone_run, Hl.
Qed.

Lemma trained_artifact_is_served_witness :
  truthy (record_age 34) = true
  ∧ ∀ st,
      Predict.predict
        (Pickled (Train.artifact percent_model age_dv empty_dv empty_dv
                    empty_dv empty_dv))
        (record_age 34) st
      = (match score percent_model age_dv (record_age 34) with
         | Ok p => Ok (prediction_fields p (int_of_bool (ge_half p)))
         | Raise e => Raise e
         end, st, EvOpen MODEL_PATH :: score_trace age_dv (record_age 34)).
Proof.
  split; [reflexivity|].
  exact (proj2 (trained_artifact_is_served Werkzeug23
                  (json_request (record_age 34)) (record_age 34)
                  percent_model age_dv empty_dv empty_dv empty_dv empty_dv
                  eq_refl eq_refl)).
Defined.

(** ** Recovery *)

(** X14.  A load that fails does no lasting harm: if the file cannot be
    loaded at one request with a payload and can be at the next, a fresh
    service answers the first with the generic 500 response and scores the
    second with the pair it then loads and stores, opening the file once
    at each of the two requests. *)
Theorem service_recovers_after_failed_load
    w fs1 fs2 r1 r2 data1 data2 model dv :
  get_json w r1 = Ok data1 → truthy data1 = true →
  get_json w r2 = Ok data2 → truthy data2 = true →
  loadable fs1 = None →
  loadable fs2 = Some (model, dv) →
  Serve.serve w [(fs1, post_predict r1); (fs2, post_predict r2)] ∅
  = [ (Response 500 ErrorPage, ∅, [EvOpen MODEL_PATH]);
      (match score model dv data2 with
       | Ok p =>
           jsonify (prediction_fields (py_round4 p) (int_of_bool (ge_half p)))
                   200
       | Raise e => jsonify (error_fields (exn_str e)) 500
       end,
       <["dv" := dv]> (<["model" := model]> ∅),
       [EvOpen MODEL_PATH; EvSetAttr "model"; EvSetAttr "dv"]
         ++ score_trace dv data2) ].
Proof.
  intros Hj1 Ht1 Hj2 Ht2 Hl1 Hl2.
  unfold Serve.serve. rewrite !app_post_predict.
  unfold full_dispatch_request.
  rewrite (predict_load_fails w fs1 r1 ∅ data1 Hj1 Ht1 (lookup_empty _) Hl1).
  rewrite load_error_http. cbn [fst snd default].
  rewrite (predict_scored w fs2 r2 ∅ data2 model dv Hj2 Ht2)
    by (unfold in_use; by rewrite lookup_empty).
  unfold after_load, load_trace. by rewrite lookup_empty, Hl2.
Qed.

Lemma service_recovers_after_failed_load_witness :
  loadable Missing = None
  ∧ Serve.serve Werkzeug23
      [ (Missing, post_predict (json_request (record_age 34)));
        (artifact_of percent_model age_dv,
         post_predict (json_request (record_age 70))) ] ∅
    = [ (Response 500 ErrorPage, ∅, [EvOpen MODEL_PATH]);
        (match score percent_model age_dv (record_age 70) with
         | Ok p =>
             jsonify
               (prediction_fields (py_round4 p) (int_of_bool (ge_half p)))
               200
         | Raise e => jsonify (error_fields (exn_str e)) 500
         end,
         <["dv" := age_dv]> (<["model" := percent_model]> ∅),
         [EvOpen MODEL_PATH; EvSetAttr "model"; EvSetAttr "dv"]
           ++ score_trace age_dv (record_age 70)) ].
Proof.
  split; [reflexivity|].
  exact (service_recovers_after_failed_load Werkzeug23 Missing
           (artifact_of percent_model age_dv)
           (json_request (record_age 34)) (json_request (record_age 70))
           (record_age 34) (record_age 70) percent_model age_dv
           eq_refl eq_refl eq_refl eq_refl eq_refl eq_refl).
Defined.
